(** * scripts/generate_typescript_protocol.py: the TypeScript protocol generator

    A shallow embedding of the two rendering routines of the script,
    [convert_typeinfos_to_typescript] (console mode, a sequence of [print]
    calls) and [generate_typescript_protocol_file] (file mode, a string built
    with [+=] and returned), of the block that runs the script as a program,
    and of the Python primitives they rely on: [str] and [repr] of nested
    values, [str.replace], f-string interpolation, tuple unpacking in a
    [for] header, [enumerate] and [dict.items].

    The routines come twice.  First with every [str] call returning its
    text, which is what the interpreter does on the values it accepts; then
    under an [interpreter], where [str] raises on an integer of too many
    digits or on data nested too deep.  The two agree wherever the second
    does not raise. *)

From Stdlib Require Import ZArith List String Ascii Bool Lia.
From Stdlib Require Import DecimalString DecimalZ.
Import ListNotations.
Open Scope string_scope.

Set Warnings "-register-all".

(** ** Python values *)

(** The values the module-level bindings can hold.  A Python [str] is a
    sequence of code points; here the code points are those of one byte
    (0..255, the Latin-1 block), the characters of [string].  A [dict] is
    kept as an association list in insertion order, which is the order
    [items()] walks it in.  Values are finite trees: a list that contains
    itself is not a [pyval]. *)
Inductive pyval : Type :=
| PNone
| PBool (b : bool)
| PInt (z : Z)
| PStr (s : string)
| PList (l : list pyval)
| PTuple (l : list pyval)
| PDict (l : list (pyval * pyval)).

(** Induction over a value and the values nested in it. *)
Section PyvalInduction.
Variable P : pyval -> Prop.
Hypothesis P_none : P PNone.
Hypothesis P_bool : forall b, P (PBool b).
Hypothesis P_int : forall z, P (PInt z).
Hypothesis P_str : forall s, P (PStr s).
Hypothesis P_list : forall l, Forall P l -> P (PList l).
Hypothesis P_tuple : forall l, Forall P l -> P (PTuple l).
Hypothesis P_dict :
  forall l, Forall (fun kv => P (fst kv) /\ P (snd kv)) l -> P (PDict l).

Fixpoint pyval_nested_ind (v : pyval) : P v :=
  match v with
  | PNone => P_none
  | PBool b => P_bool b
  | PInt z => P_int z
  | PStr s => P_str s
  | PList l =>
      P_list l
        ((fix all (l : list pyval) : Forall P l :=
            match l with
            | [] => Forall_nil P
            | x :: l' => Forall_cons x (pyval_nested_ind x) (all l')
            end) l)
  | PTuple l =>
      P_tuple l
        ((fix all (l : list pyval) : Forall P l :=
            match l with
            | [] => Forall_nil P
            | x :: l' => Forall_cons x (pyval_nested_ind x) (all l')
            end) l)
  | PDict l =>
      P_dict l
        ((fix all (l : list (pyval * pyval))
            : Forall (fun kv => P (fst kv) /\ P (snd kv)) l :=
            match l with
            | [] => Forall_nil _
            | kv :: l' =>
                Forall_cons kv
                  (conj (pyval_nested_ind (fst kv)) (pyval_nested_ind (snd kv)))
                  (all l')
            end) l)
  end.
End PyvalInduction.

(** The exceptions the two routines can raise: [TypeError] and [ValueError]
    from unpacking, [ValueError] and [RecursionError] from [str]. *)
Inductive pyexn : Type :=
| TypeError
| ValueError
| RecursionError.

Inductive result (A : Type) : Type :=
| Ok (a : A)
| Raise (e : pyexn).
Arguments Ok {A} a.
Arguments Raise {A} e.

(** ** Characters and text *)

Definition nl : string := String "010"%char EmptyString.
Definition dq : string := String "034"%char EmptyString.

Definition squote : ascii := "'"%char.
Definition dquote : ascii := "034"%char.
Definition backslash : ascii := "\"%char.

Fixpoint str_contains (c : ascii) (s : string) : bool :=
  match s with
  | EmptyString => false
  | String a s' => Ascii.eqb a c || str_contains c s'
  end.

(** [s.replace(old, new)] for one-character [old] and [new], the only form
    the script calls. *)
Fixpoint replace_char (old new : ascii) (s : string) : string :=
  match s with
  | EmptyString => EmptyString
  | String a s' =>
      String (if Ascii.eqb a old then new else a) (replace_char old new s')
  end.

(** [sep.join(parts)]. *)
Fixpoint join (sep : string) (parts : list string) : string :=
  match parts with
  | [] => EmptyString
  | [p] => p
  | p :: rest => p ++ sep ++ join sep rest
  end.

(** ** [str] and [repr] *)

(** [str(n)] of an [int]: decimal digits, a leading minus sign when negative. *)
Definition str_int (z : Z) : string := NilEmpty.string_of_int (Z.to_int z).

Definition str_nat (n : nat) : string := str_int (Z.of_nat n).

Definition hex_digit (n : nat) : ascii :=
  nth n ["0"; "1"; "2"; "3"; "4"; "5"; "6"; "7";
         "8"; "9"; "a"; "b"; "c"; "d"; "e"; "f"]%char "0"%char.

(** The two-digit escape of [repr] for an unprintable code point below 256. *)
Definition hex_escape (c : ascii) : string :=
  let n := nat_of_ascii c in
  String backslash
    (String "x"%char
       (String (hex_digit (n / 16)) (String (hex_digit (n mod 16)) EmptyString))).

(** [str.isprintable] on the code points below 256: the ASCII controls and
    DEL, the C1 controls, the no-break space and the soft hyphen are not. *)
Definition py_isprintable (c : ascii) : bool :=
  let n := nat_of_ascii c in
  ((32 <=? n) && (n <? 127) || (161 <=? n) && negb (n =? 173))%nat.

Definition repr_char (quote c : ascii) : string :=
  if Ascii.eqb c quote || Ascii.eqb c backslash then
    String backslash (String c EmptyString)
  else if Ascii.eqb c "009"%char then "\t"
  else if Ascii.eqb c "010"%char then "\n"
  else if Ascii.eqb c "013"%char then "\r"
  else if py_isprintable c then String c EmptyString
  else hex_escape c.

Fixpoint repr_chars (quote : ascii) (s : string) : string :=
  match s with
  | EmptyString => EmptyString
  | String c s' => repr_char quote c ++ repr_chars quote s'
  end.

(** [repr] picks the apostrophe as delimiter unless the text holds an
    apostrophe and no double quote. *)
Definition repr_quote (s : string) : ascii :=
  if str_contains squote s && negb (str_contains dquote s) then dquote
  else squote.

Definition repr_str (s : string) : string :=
  let q := repr_quote s in
  String q (repr_chars q s ++ String q EmptyString).

Definition repr_tuple (parts : list string) : string :=
  match parts with
  | [p] => "(" ++ p ++ ",)"
  | _ => "(" ++ join ", " parts ++ ")"
  end.

Fixpoint py_repr (v : pyval) : string :=
  match v with
  | PNone => "None"
  | PBool true => "True"
  | PBool false => "False"
  | PInt z => str_int z
  | PStr s => repr_str s
  | PList l => "[" ++ join ", " (map py_repr l) ++ "]"
  | PTuple l => repr_tuple (map py_repr l)
  | PDict l =>
      "{" ++ join ", " (map (fun kv => py_repr (fst kv) ++ ": " ++ py_repr (snd kv)) l)
          ++ "}"
  end.

(** [str(v)]: the text itself for a [str], [repr] for everything else. *)
Definition py_str (v : pyval) : string :=
  match v with
  | PStr s => s
  | _ => py_repr v
  end.

(** An f-string field [{v}] with no format spec: [format(v, '')], which is
    [str(v)] for every value here. *)
Definition py_format (v : pyval) : string := py_str v.

(** ** Unpacking and iteration *)

Fixpoint chars_of (s : string) : list pyval :=
  match s with
  | EmptyString => []
  | String c s' => PStr (String c EmptyString) :: chars_of s'
  end.

(** What iterating a value yields; [None] when it is not iterable. *)
Definition py_iter (v : pyval) : option (list pyval) :=
  match v with
  | PList l | PTuple l => Some l
  | PStr s => Some (chars_of s)
  | PDict l => Some (map fst l)
  | PNone | PBool _ | PInt _ => None
  end.

(** The target [(a, b)] of a [for] header or an assignment. *)
Definition unpack2 (v : pyval) : result (pyval * pyval) :=
  match py_iter v with
  | None => Raise TypeError
  | Some [a; b] => Ok (a, b)
  | Some _ => Raise ValueError
  end.

Fixpoint enumerate_from {A : Type} (start : nat) (l : list A) : list (nat * A) :=
  match l with
  | [] => []
  | x :: l' => (start, x) :: enumerate_from (S start) l'
  end.

Definition enumerate {A : Type} (l : list A) : list (nat * A) :=
  enumerate_from 0 l.

(** ** The module-level bindings the routines read *)

Record descriptor : Type := {
  typeinfos : list pyval;
  game_event_types : list (pyval * pyval);
  game_eventid_typeid : Z;
  message_event_types : list (pyval * pyval);
  message_eventid_typeid : Z;
  tracker_event_types : list (pyval * pyval);
  tracker_eventid_typeid : Z;
  svaruint32_typeid : Z;
  replay_userid_typeid : Z;
  replay_header_typeid : Z;
  game_details_typeid : Z;
  replay_initdata_typeid : Z
}.

(** The bindings as the header of the script gives them. *)
Definition header_descriptor : descriptor := {|
  typeinfos := [];
  game_event_types := [];
  game_eventid_typeid := 0;
  message_event_types := [];
  message_eventid_typeid := 1;
  tracker_event_types := [];
  tracker_eventid_typeid := 2;
  svaruint32_typeid := 7;
  replay_userid_typeid := 8;
  replay_header_typeid := 18;
  game_details_typeid := 40;
  replay_initdata_typeid := 73
|}.

(** ** Console mode: [print] on the standard output stream *)

(** A computation that may raise and writes to the stream as it goes: what
    was printed before an exception stays printed. *)
Definition io (A : Type) : Type := string -> result A * string.

Definition io_ret {A : Type} (a : A) : io A := fun out => (Ok a, out).

Definition io_bind {A B : Type} (m : io A) (k : A -> io B) : io B :=
  fun out =>
    match m out with
    | (Ok a, out') => k a out'
    | (Raise e, out') => (Raise e, out')
    end.

Definition io_lift {A : Type} (r : result A) : io A := fun out => (r, out).

(** [print(s)] writes the text and a newline; [print()] is [print_ EmptyString]. *)
Definition print_ (s : string) : io unit := fun out => (Ok tt, out ++ s ++ nl).

Declare Scope io_scope.
Delimit Scope io_scope with io.
Notation "m ;; k" := (io_bind m (fun _ => k))
  (at level 61, right associativity) : io_scope.
Notation "' pat <- m ;; k" := (io_bind m (fun x => match x with pat => k end))
  (at level 61, pat pattern, m at next level, right associativity) : io_scope.

(** [for x in xs: body]. *)
Fixpoint for_io {X : Type} (xs : list X) (body : X -> io unit) : io unit :=
  match xs with
  | [] => io_ret tt
  | x :: xs' => io_bind (body x) (fun _ => for_io xs' body)
  end.

(** The f-string of one catalog entry, with the [formatted_data] it
    interpolates; both routines build the same text, the file routine adds
    the newline itself. *)
Definition typeinfo_line (i : nat) (type_name type_data : pyval) : string :=
  let formatted_data := replace_char squote dquote (py_str type_data) in
  "  { type: " ++ dq ++ py_format type_name ++ dq ++ ", data: " ++ formatted_data
    ++ " }, // " ++ str_nat i.

(** The f-string of one dispatch-table entry, the same in the three loops of
    both routines. *)
Definition event_line (event_id type_id name : pyval) : string :=
  "  " ++ py_format event_id ++ ": { typeId: " ++ py_format type_id
    ++ ", name: " ++ dq ++ py_format name ++ dq ++ " },".

Definition convert_typeinfos_to_typescript (d : descriptor) : io unit :=
  (print_ "// Generated TypeScript protocol definitions" ;;
   print_ "// Auto-generated from protocol typeinfos" ;;
   print_ EmptyString ;;
   print_ "export interface ProtocolTypeInfo {" ;;
   print_ "  type: string;" ;;
   print_ "  data: any[];" ;;
   print_ "}" ;;
   print_ EmptyString ;;
   print_ "export const protocolTypeinfos: ProtocolTypeInfo[] = [" ;;
   for_io (enumerate (typeinfos d)) (fun ie =>
     let i := fst ie in
     ' (type_name, type_data) <- io_lift (unpack2 (snd ie)) ;;
     print_ (typeinfo_line i type_name type_data)) ;;
   print_ "];" ;;
   print_ EmptyString ;;
   print_ "export const gameEventTypes: Record<number, { typeId: number; name: string }> = {" ;;
   for_io (game_event_types d) (fun item =>
     let event_id := fst item in
     ' (type_id, name) <- io_lift (unpack2 (snd item)) ;;
     print_ (event_line event_id type_id name)) ;;
   print_ "};" ;;
   print_ EmptyString ;;
   print_ "export const messageEventTypes: Record<number, { typeId: number; name: string }> = {" ;;
   for_io (message_event_types d) (fun item =>
     let event_id := fst item in
     ' (type_id, name) <- io_lift (unpack2 (snd item)) ;;
     print_ (event_line event_id type_id name)) ;;
   print_ "};" ;;
   print_ EmptyString ;;
   print_ "export const trackerEventTypes: Record<number, { typeId: number; name: string }> = {" ;;
   for_io (tracker_event_types d) (fun item =>
     let event_id := fst item in
     ' (type_id, name) <- io_lift (unpack2 (snd item)) ;;
     print_ (event_line event_id type_id name)) ;;
   print_ "};" ;;
   print_ EmptyString ;;
   print_ "// Important protocol type IDs" ;;
   print_ ("export const GAME_EVENTID_TYPEID = " ++ str_int (game_eventid_typeid d) ++ ";") ;;
   print_ ("export const MESSAGE_EVENTID_TYPEID = " ++ str_int (message_eventid_typeid d) ++ ";") ;;
   print_ ("export const TRACKER_EVENTID_TYPEID = " ++ str_int (tracker_eventid_typeid d) ++ ";") ;;
   print_ ("export const SVARUINT32_TYPEID = " ++ str_int (svaruint32_typeid d) ++ ";") ;;
   print_ ("export const REPLAY_USERID_TYPEID = " ++ str_int (replay_userid_typeid d) ++ ";") ;;
   print_ ("export const REPLAY_HEADER_TYPEID = " ++ str_int (replay_header_typeid d) ++ ";") ;;
   print_ ("export const GAME_DETAILS_TYPEID = " ++ str_int (game_details_typeid d) ++ ";") ;;
   print_ ("export const REPLAY_INITDATA_TYPEID = " ++ str_int (replay_initdata_typeid d) ++ ";"))%io.

(** ** File mode: the text accumulated in [typescript_content] *)

Definition bind {A B : Type} (r : result A) (k : A -> result B) : result B :=
  match r with
  | Ok a => k a
  | Raise e => Raise e
  end.

Notation "' pat <- r ;; k" := (bind r (fun x => match x with pat => k end))
  (at level 61, pat pattern, r at next level, right associativity).
Notation "x <- r ;; k" := (bind r (fun x => k))
  (at level 61, r at next level, right associativity).

(** [for x in xs: content += chunk(x)], the chunk possibly raising. *)
Fixpoint for_content {X : Type} (xs : list X) (chunk : X -> result string)
    (content : string) : result string :=
  match xs with
  | [] => Ok content
  | x :: xs' => c <- chunk x ;; for_content xs' chunk (content ++ c)
  end.

Definition file_preamble : string :=
"// Auto-generated TypeScript protocol definitions
// Generated from StarCraft II protocol specification

export interface ProtocolTypeInfo {
  type: string;
  data: any[];
}

export interface EventType {
  typeId: number;
  name: string;
}

// Protocol type information array
export const protocolTypeinfos: ProtocolTypeInfo[] = [
".

Definition file_helpers : string :=
";

// Helper functions for protocol parsing
export function getTypeInfo(typeId: number): ProtocolTypeInfo | undefined {
  return protocolTypeinfos[typeId];
}

export function getGameEventType(eventId: number): EventType | undefined {
  return gameEventTypes[eventId];
}

export function getMessageEventType(eventId: number): EventType | undefined {
  return messageEventTypes[eventId];
}

export function getTrackerEventType(eventId: number): EventType | undefined {
  return trackerEventTypes[eventId];
}
".

Definition generate_typescript_protocol_file (d : descriptor) : result string :=
  let typescript_content := file_preamble in
  typescript_content <-
    for_content (enumerate (typeinfos d)) (fun ie =>
      let i := fst ie in
      ' (type_name, type_data) <- unpack2 (snd ie) ;;
      Ok (typeinfo_line i type_name type_data ++ nl)) typescript_content ;;
  let typescript_content := typescript_content ++ "];" ++ nl ++ nl in
  let typescript_content :=
    typescript_content ++ "export const gameEventTypes: Record<number, EventType> = {" ++ nl in
  typescript_content <-
    for_content (game_event_types d) (fun item =>
      let event_id := fst item in
      ' (type_id, name) <- unpack2 (snd item) ;;
      Ok (event_line event_id type_id name ++ nl)) typescript_content ;;
  let typescript_content := typescript_content ++ "};" ++ nl ++ nl in
  let typescript_content :=
    typescript_content ++ "export const messageEventTypes: Record<number, EventType> = {" ++ nl in
  typescript_content <-
    for_content (message_event_types d) (fun item =>
      let event_id := fst item in
      ' (type_id, name) <- unpack2 (snd item) ;;
      Ok (event_line event_id type_id name ++ nl)) typescript_content ;;
  let typescript_content := typescript_content ++ "};" ++ nl ++ nl in
  let typescript_content :=
    typescript_content ++ "export const trackerEventTypes: Record<number, EventType> = {" ++ nl in
  typescript_content <-
    for_content (tracker_event_types d) (fun item =>
      let event_id := fst item in
      ' (type_id, name) <- unpack2 (snd item) ;;
      Ok (event_line event_id type_id name ++ nl)) typescript_content ;;
  let typescript_content := typescript_content ++ "};" ++ nl ++ nl in
  let typescript_content :=
    typescript_content ++
    ("// Important protocol type IDs
export const GAME_EVENTID_TYPEID = " ++ str_int (game_eventid_typeid d) ++ ";
export const MESSAGE_EVENTID_TYPEID = " ++ str_int (message_eventid_typeid d) ++ ";
export const TRACKER_EVENTID_TYPEID = " ++ str_int (tracker_eventid_typeid d) ++ ";
export const SVARUINT32_TYPEID = " ++ str_int (svaruint32_typeid d) ++ ";
export const REPLAY_USERID_TYPEID = " ++ str_int (replay_userid_typeid d) ++ ";
export const REPLAY_HEADER_TYPEID = " ++ str_int (replay_header_typeid d) ++ ";
export const GAME_DETAILS_TYPEID = " ++ str_int (game_details_typeid d) ++ ";
export const REPLAY_INITDATA_TYPEID = " ++ str_int (replay_initdata_typeid d) ++ file_helpers) in
  Ok typescript_content.

(** ** Line-level description of the documents *)

(** The text of a list of lines, each closed by a newline. *)
Fixpoint unlines (ls : list string) : string :=
  match ls with
  | [] => EmptyString
  | l :: ls' => l ++ nl ++ unlines ls'
  end.

(** One pass of a loop whose header unpacks and whose body emits one line:
    the text emitted before the first failure, and that failure if any. *)
Fixpoint scan {X : Type} (line : X -> result string) (xs : list X)
    : string * option pyexn :=
  match xs with
  | [] => (EmptyString, None)
  | x :: xs' =>
      match line x with
      | Ok s => let r := scan line xs' in (s ++ nl ++ fst r, snd r)
      | Raise e => (EmptyString, Some e)
      end
  end.

Definition catalog_line (ie : nat * pyval) : result string :=
  ' (type_name, type_data) <- unpack2 (snd ie) ;;
  Ok (typeinfo_line (fst ie) type_name type_data).

Definition table_line (item : pyval * pyval) : result string :=
  ' (type_id, name) <- unpack2 (snd item) ;;
  Ok (event_line (fst item) type_id name).

Definition unpacks (v : pyval) : bool :=
  match unpack2 v with
  | Ok _ => true
  | Raise _ => false
  end.

(** Every catalog entry and every dispatch-table value unpacks into two
    items, as a pair [(name, data)] or [(typeId, name)] does. *)
Definition well_shaped (d : descriptor) : bool :=
  forallb unpacks (typeinfos d)
  && forallb (fun item => unpacks (snd item)) (game_event_types d)
  && forallb (fun item => unpacks (snd item)) (message_event_types d)
  && forallb (fun item => unpacks (snd item)) (tracker_event_types d).

Definition console_head : list string :=
  [ "// Generated TypeScript protocol definitions";
    "// Auto-generated from protocol typeinfos";
    EmptyString;
    "export interface ProtocolTypeInfo {";
    "  type: string;";
    "  data: any[];";
    "}";
    EmptyString;
    "export const protocolTypeinfos: ProtocolTypeInfo[] = [" ].

Definition console_table_open (name : string) : list string :=
  [ "export const " ++ name ++ ": Record<number, { typeId: number; name: string }> = {" ].

Definition file_table_open (name : string) : list string :=
  [ "export const " ++ name ++ ": Record<number, EventType> = {" ].

Definition constant_lines (d : descriptor) : list string :=
  [ "// Important protocol type IDs";
    "export const GAME_EVENTID_TYPEID = " ++ str_int (game_eventid_typeid d) ++ ";";
    "export const MESSAGE_EVENTID_TYPEID = " ++ str_int (message_eventid_typeid d) ++ ";";
    "export const TRACKER_EVENTID_TYPEID = " ++ str_int (tracker_eventid_typeid d) ++ ";";
    "export const SVARUINT32_TYPEID = " ++ str_int (svaruint32_typeid d) ++ ";";
    "export const REPLAY_USERID_TYPEID = " ++ str_int (replay_userid_typeid d) ++ ";";
    "export const REPLAY_HEADER_TYPEID = " ++ str_int (replay_header_typeid d) ++ ";";
    "export const GAME_DETAILS_TYPEID = " ++ str_int (game_details_typeid d) ++ ";";
    "export const REPLAY_INITDATA_TYPEID = " ++ str_int (replay_initdata_typeid d) ++ ";" ].

(** The lines of the accessor block that closes the file-mode document. *)
Definition helper_lines : list string :=
  [ EmptyString;
    "// Helper functions for protocol parsing";
    "export function getTypeInfo(typeId: number): ProtocolTypeInfo | undefined {";
    "  return protocolTypeinfos[typeId];";
    "}";
    EmptyString;
    "export function getGameEventType(eventId: number): EventType | undefined {";
    "  return gameEventTypes[eventId];";
    "}";
    EmptyString;
    "export function getMessageEventType(eventId: number): EventType | undefined {";
    "  return messageEventTypes[eventId];";
    "}";
    EmptyString;
    "export function getTrackerEventType(eventId: number): EventType | undefined {";
    "  return trackerEventTypes[eventId];";
    "}" ].

(** Continue after a pass, or stop at its failure with the text so far. *)
Definition after {R : Type} (r : string * option pyexn) (stop : pyexn -> string -> R)
    (so_far : string) (k : string -> R) : R :=
  match snd r with
  | Some e => stop e (so_far ++ fst r)
  | None => k (so_far ++ fst r)
  end.

(** The two items an entry unpacks into (a dummy pair when it does not). *)
Definition the_pair (v : pyval) : pyval * pyval :=
  match unpack2 v with
  | Ok p => p
  | Raise _ => (PNone, PNone)
  end.

Definition catalog_entry (ie : nat * pyval) : string :=
  typeinfo_line (fst ie) (fst (the_pair (snd ie))) (snd (the_pair (snd ie))).

Definition table_entry (item : pyval * pyval) : string :=
  event_line (fst item) (fst (the_pair (snd item))) (snd (the_pair (snd item))).

Definition file_head : list string :=
  [ "// Auto-generated TypeScript protocol definitions";
    "// Generated from StarCraft II protocol specification";
    EmptyString;
    "export interface ProtocolTypeInfo {";
    "  type: string;";
    "  data: any[];";
    "}";
    EmptyString;
    "export interface EventType {";
    "  typeId: number;";
    "  name: string;";
    "}";
    EmptyString;
    "// Protocol type information array";
    "export const protocolTypeinfos: ProtocolTypeInfo[] = [" ].

(** The body shared by the two documents, up to the head and to how the
    three table declarations open. *)
Definition body_lines (head : list string) (table_open : string -> list string)
    (d : descriptor) : list string :=
  head ++ map catalog_entry (enumerate (typeinfos d))
    ++ ["];"; EmptyString] ++ table_open "gameEventTypes"
    ++ map table_entry (game_event_types d)
    ++ ["};"; EmptyString] ++ table_open "messageEventTypes"
    ++ map table_entry (message_event_types d)
    ++ ["};"; EmptyString] ++ table_open "trackerEventTypes"
    ++ map table_entry (tracker_event_types d)
    ++ ["};"; EmptyString] ++ constant_lines d.

Definition console_lines (d : descriptor) : list string :=
  body_lines console_head console_table_open d.

Definition file_lines (d : descriptor) : list string :=
  body_lines file_head file_table_open d ++ helper_lines.

Definition is_ok {A : Type} (r : result A) : bool :=
  match r with
  | Ok _ => true
  | Raise _ => false
  end.

(** ** TypeScript literals *)

(** What the emitted text is measured against: the string-literal rules of
    the target language (ECMAScript [StringLiteral], double-quoted form) and
    the literal syntax the specification names for each kind of value. *)

Definition hex_value (c : ascii) : option nat :=
  let n := nat_of_ascii c in
  if ((48 <=? n) && (n <=? 57))%nat then Some (n - 48)
  else if ((97 <=? n) && (n <=? 102))%nat then Some (n - 87)
  else if ((65 <=? n) && (n <=? 70))%nat then Some (n - 55)
  else None.

(** The character a backslash followed by [e] stands for; [None] for the
    escapes that need more characters ([x], [u]), for the legacy octal
    digits and for a line break. *)
Definition ts_escape_char (e : ascii) : option ascii :=
  if Ascii.eqb e "n" then Some "010"%char
  else if Ascii.eqb e "t" then Some "009"%char
  else if Ascii.eqb e "r" then Some "013"%char
  else if Ascii.eqb e "b" then Some "008"%char
  else if Ascii.eqb e "f" then Some "012"%char
  else if Ascii.eqb e "v" then Some "011"%char
  else if Ascii.eqb e "0" then Some "000"%char
  else if Ascii.eqb e "x" || Ascii.eqb e "u" || Ascii.eqb e "010" || Ascii.eqb e "013"
  then None
  else match hex_value e with
       | Some n => if (n <=? 9)%nat then None else Some e
       | None => Some e
       end.

Definition cons_char (c : ascii) (r : option (string * string))
    : option (string * string) :=
  match r with
  | Some (content, rest) => Some (String c content, rest)
  | None => None
  end.

(** Reads the characters of a literal after its opening double quote: the
    text it denotes and what follows the closing quote.  [None] when the
    literal is not closed on its line or holds an escape outside the ones
    above. *)
Fixpoint ts_string_chars (s : string) : option (string * string) :=
  match s with
  | EmptyString => None
  | String c s' =>
      if Ascii.eqb c dquote then Some (EmptyString, s')
      else if Ascii.eqb c "010" || Ascii.eqb c "013" then None
      else if Ascii.eqb c backslash then
        match s' with
        | EmptyString => None
        | String e s'' =>
            if Ascii.eqb e "x" then
              match s'' with
              | String h1 (String h2 s3) =>
                  match hex_value h1, hex_value h2 with
                  | Some a, Some b =>
                      cons_char (ascii_of_nat (16 * a + b)) (ts_string_chars s3)
                  | _, _ => None
                  end
              | _ => None
              end
            else
              match ts_escape_char e with
              | Some ch => cons_char ch (ts_string_chars s'')
              | None => None
              end
        end
      else cons_char c (ts_string_chars s')
  end.

(** Reads a double-quoted string literal off the front of a text. *)
Definition ts_read_string (s : string) : option (string * string) :=
  match s with
  | String c s' => if Ascii.eqb c dquote then ts_string_chars s' else None
  | EmptyString => None
  end.

Definition ts_escape (c : ascii) : string :=
  if Ascii.eqb c dquote || Ascii.eqb c backslash then
    String backslash (String c EmptyString)
  else if Ascii.eqb c "010" then "\n"
  else if Ascii.eqb c "013" then "\r"
  else String c EmptyString.

Fixpoint ts_escaped (s : string) : string :=
  match s with
  | EmptyString => EmptyString
  | String c s' => ts_escape c ++ ts_escaped s'
  end.

(** The double-quoted literal that denotes [s]. *)
Definition ts_string_literal (s : string) : string :=
  dq ++ ts_escaped s ++ dq.

(** A property name of an object literal: a non-negative number or a string
    literal. *)
Definition ts_key (k : pyval) : option string :=
  match k with
  | PInt z => if (0 <=? z)%Z then Some (str_int z) else None
  | PStr s => Some (ts_string_literal s)
  | _ => None
  end.

(** All the texts, when every one is there. *)
Fixpoint sequence (rs : list (option string)) : option (list string) :=
  match rs with
  | [] => Some []
  | Some a :: rs' =>
      match sequence rs' with
      | Some r => Some (a :: r)
      | None => None
      end
  | None :: _ => None
  end.

Definition ts_field (k a : option string) : option string :=
  match k, a with
  | Some k, Some a => Some (k ++ ": " ++ a)
  | _, _ => None
  end.

(** The literal of a value, by the policy of the specification: ordered
    sequences as array literals, associations as object literals, text as
    string literals with the target language's escapes, integers as bare
    numerals; [None] for a value of any other kind. *)
Fixpoint ts_literal (v : pyval) : option string :=
  match v with
  | PInt z => Some (str_int z)
  | PStr s => Some (ts_string_literal s)
  | PList l | PTuple l =>
      match sequence (map ts_literal l) with
      | Some parts => Some ("[" ++ join ", " parts ++ "]")
      | None => None
      end
  | PDict l =>
      match
        sequence (map (fun kv => ts_field (ts_key (fst kv)) (ts_literal (snd kv))) l)
      with
      | Some parts => Some ("{" ++ join ", " parts ++ "}")
      | None => None
      end
  | PNone | PBool _ => None
  end.

(** Text with no double quote, backslash or line break in it. *)
Fixpoint quote_safe (s : string) : bool :=
  match s with
  | EmptyString => true
  | String c s' =>
      negb (Ascii.eqb c dquote) && negb (Ascii.eqb c backslash)
      && negb (Ascii.eqb c "010") && negb (Ascii.eqb c "013") && quote_safe s'
  end.

(** Text that [repr] and a TypeScript literal spell the same way: printable
    characters, none of them a quote or a backslash. *)
Fixpoint plain_text (s : string) : bool :=
  match s with
  | EmptyString => true
  | String c s' =>
      py_isprintable c && negb (Ascii.eqb c squote) && negb (Ascii.eqb c dquote)
      && negb (Ascii.eqb c backslash) && plain_text s'
  end.

Definition plain_key (k : pyval) : bool :=
  match k with
  | PInt z => (0 <=? z)%Z
  | PStr s => plain_text s
  | _ => false
  end.

(** Values built from lists, dicts, integers and plain text only. *)
Fixpoint plain (v : pyval) : bool :=
  match v with
  | PInt _ => true
  | PStr s => plain_text s
  | PList l => forallb plain l
  | PDict l => forallb (fun kv => plain_key (fst kv) && plain (snd kv)) l
  | PNone | PBool _ | PTuple _ => false
  end.

(** ** The three dispatch tables *)

Inductive event_table : Type :=
| GameEvents
| MessageEvents
| TrackerEvents.

Definition table_of (c : event_table) (d : descriptor) : list (pyval * pyval) :=
  match c with
  | GameEvents => game_event_types d
  | MessageEvents => message_event_types d
  | TrackerEvents => tracker_event_types d
  end.


(** [line] is the output line of the table item [item]. *)
Definition renders_entry (item : pyval * pyval) (line : string) : Prop :=
  exists type_id name,
    unpack2 (snd item) = Ok (type_id, name)
    /\ line = "  " ++ py_format (fst item) ++ ": { typeId: " ++ py_format type_id
              ++ ", name: " ++ dq ++ py_format name ++ dq ++ " },".


(** The line opens the declaration of an exported function. *)
Definition declares_function (line : string) : bool :=
  String.prefix "export function " line.

(** ** Sample descriptors *)

(** A few entries in the shape of s2protocol's protocol80949.py, the module
    the header of the script says to copy the bindings from. *)
Definition sample_descriptor : descriptor := {|
  typeinfos :=
    [ PTuple [PStr "_int"; PList [PTuple [PInt 0; PInt 7]]];
      PTuple [PStr "_struct";
              PList [PList [PTuple [PStr "m_flags"; PInt 13; PInt 0]]]];
      PTuple [PStr "_choice";
              PList [PTuple [PInt 0; PInt 2];
                     PDict [(PInt 0, PTuple [PStr "m_uint6"; PInt 3])]]] ];
  game_event_types :=
    [ (PInt 5, PTuple [PInt 82; PStr "NNet.Game.SUserFinishedLoadingSyncEvent"]);
      (PInt 7, PTuple [PInt 81; PStr "NNet.Game.SUserOptionsEvent"]) ];
  game_eventid_typeid := 0;
  message_event_types := [ (PInt 0, PTuple [PInt 155; PStr "NNet.Game.SChatMessage"]) ];
  message_eventid_typeid := 1;
  tracker_event_types :=
    [ (PInt 0, PTuple [PInt 184; PStr "NNet.Replay.Tracker.SPlayerStatsEvent"]) ];
  tracker_eventid_typeid := 2;
  svaruint32_typeid := 7;
  replay_userid_typeid := 8;
  replay_header_typeid := 18;
  game_details_typeid := 40;
  replay_initdata_typeid := 73
|}.

(** The header bindings with the catalog replaced. *)
Definition with_typeinfos (l : list pyval) : descriptor := {|
  typeinfos := l;
  game_event_types := [];
  game_eventid_typeid := 0;
  message_event_types := [];
  message_eventid_typeid := 1;
  tracker_event_types := [];
  tracker_eventid_typeid := 2;
  svaruint32_typeid := 7;
  replay_userid_typeid := 8;
  replay_header_typeid := 18;
  game_details_typeid := 40;
  replay_initdata_typeid := 73
|}.


(** A name with a double quote in it, data with an apostrophe in it. *)
Definition quote_descriptor : descriptor :=
  with_typeinfos [ PTuple [PStr ("a" ++ dq ++ "b"); PList [PStr "it's"]] ].

(** The first catalog entry of protocol80949.py: a bounded integer type,
    its bounds a tuple. *)
Definition tuple_descriptor : descriptor :=
  with_typeinfos [ PTuple [PStr "_int"; PList [PTuple [PInt 0; PInt 7]]] ].


(** What the [for] headers make of a descriptor: each catalog entry
    unpacked, each table item as its key and its value unpacked, and the
    eight constants. *)
Definition unpacked_table (t : list (pyval * pyval))
    : list (pyval * result (pyval * pyval)) :=
  map (fun item => (fst item, unpack2 (snd item))) t.

Definition constants_of (d : descriptor) : list Z :=
  [ game_eventid_typeid d; message_eventid_typeid d; tracker_eventid_typeid d;
    svaruint32_typeid d; replay_userid_typeid d; replay_header_typeid d;
    game_details_typeid d; replay_initdata_typeid d ].

Definition same_unpacked (d1 d2 : descriptor) : Prop :=
  map unpack2 (typeinfos d1) = map unpack2 (typeinfos d2)
  /\ unpacked_table (game_event_types d1) = unpacked_table (game_event_types d2)
  /\ unpacked_table (message_event_types d1) = unpacked_table (message_event_types d2)
  /\ unpacked_table (tracker_event_types d1) = unpacked_table (tracker_event_types d2)
  /\ constants_of d1 = constants_of d2.

(** [sample_descriptor] with every pair written as a two-item list. *)
Definition sample_with_lists : descriptor := {|
  typeinfos :=
    [ PList [PStr "_int"; PList [PTuple [PInt 0; PInt 7]]];
      PList [PStr "_struct";
             PList [PList [PTuple [PStr "m_flags"; PInt 13; PInt 0]]]];
      PList [PStr "_choice";
             PList [PTuple [PInt 0; PInt 2];
                    PDict [(PInt 0, PTuple [PStr "m_uint6"; PInt 3])]]] ];
  game_event_types :=
    [ (PInt 5, PList [PInt 82; PStr "NNet.Game.SUserFinishedLoadingSyncEvent"]);
      (PInt 7, PList [PInt 81; PStr "NNet.Game.SUserOptionsEvent"]) ];
  game_eventid_typeid := 0;
  message_event_types := [ (PInt 0, PList [PInt 155; PStr "NNet.Game.SChatMessage"]) ];
  message_eventid_typeid := 1;
  tracker_event_types :=
    [ (PInt 0, PList [PInt 184; PStr "NNet.Replay.Tracker.SPlayerStatsEvent"]) ];
  tracker_eventid_typeid := 2;
  svaruint32_typeid := 7;
  replay_userid_typeid := 8;
  replay_header_typeid := 18;
  game_details_typeid := 40;
  replay_initdata_typeid := 73
|}.

(** ** Reading an entry line back *)

(** The text before the first [c] and the text after it. *)
Fixpoint take_until (c : ascii) (s : string) : option (string * string) :=
  match s with
  | EmptyString => None
  | String a s' =>
      if Ascii.eqb a c then Some (EmptyString, s')
      else cons_char a (take_until c s')
  end.

(** [s] without its prefix [p]; [None] when [s] does not start with [p]. *)
Fixpoint strip_prefix (p s : string) : option string :=
  match p, s with
  | EmptyString, _ => Some s
  | String a p', String b s' => if Ascii.eqb a b then strip_prefix p' s' else None
  | String _ _, EmptyString => None
  end.

(** The integer a decimal numeral denotes; only the numeral [str] writes for
    that integer is accepted. *)
Definition read_int (s : string) : option Z :=
  match NilEmpty.int_of_string s with
  | Some i => if s =? str_int (Z.of_int i) then Some (Z.of_int i) else None
  | None => None
  end.

(** Reads a line of a mapping literal: the numeric key, the numeric
    [typeId] and the text the [name] literal denotes. *)
Definition read_event_line (line : string) : option (Z * Z * string) :=
  match strip_prefix "  " line with
  | None => None
  | Some s1 =>
  match take_until ":" s1 with
  | None => None
  | Some (key, s2) =>
  match strip_prefix " { typeId: " s2 with
  | None => None
  | Some s3 =>
  match take_until "," s3 with
  | None => None
  | Some (type_id, s4) =>
  match strip_prefix " name: " s4 with
  | None => None
  | Some s5 =>
  match ts_read_string s5 with
  | None => None
  | Some (name, s6) =>
      if s6 =? " }," then
        match read_int key, read_int type_id with
        | Some k, Some t => Some (k, t, name)
        | _, _ => None
        end
      else None
  end end end end end end.

(** The characters a decimal numeral is written with. *)
Definition numeral_char (c : ascii) : bool := str_contains c "-0123456789".

(** ** Physical lines *)

(** [text.split] at line breaks: the pieces between them, the last one being
    what follows the last line break. *)
Fixpoint split_lines (s : string) : list string :=
  match s with
  | EmptyString => [EmptyString]
  | String c s' =>
      if Ascii.eqb c "010" then EmptyString :: split_lines s'
      else
        match split_lines s' with
        | l :: ls => String c l :: ls
        | [] => [String c EmptyString]
        end
  end.

Definition one_line (s : string) : bool := negb (str_contains "010"%char s).

(** A value whose [str] could hold a line break is a string that does;
    [repr] writes every line break inside a value as an escape. *)
Definition one_line_value (v : pyval) : bool :=
  match v with
  | PStr s => one_line s
  | _ => true
  end.

Definition one_line_item (item : pyval * pyval) : bool :=
  one_line_value (fst item)
  && one_line_value (fst (the_pair (snd item)))
  && one_line_value (snd (the_pair (snd item))).

(** No string that the routines paste as it is (a name, a key, or data that
    is itself a string) holds a line break. *)
Definition one_line_entries (d : descriptor) : bool :=
  forallb (fun e => one_line_value (fst (the_pair e))
                    && one_line_value (snd (the_pair e))) (typeinfos d)
  && forallb one_line_item (game_event_types d)
  && forallb one_line_item (message_event_types d)
  && forallb one_line_item (tracker_event_types d).

(** ** The interpreter's limits on [str] *)

(** The routines above take every [str] call to return.  CPython refuses
    two kinds of value: an integer with more decimal digits than
    [sys.get_int_max_str_digits()] ([ValueError]; 4300 unless configured,
    0 for no limit), and data nested deeper than the interpreter can follow
    ([RecursionError]).  How deep that is at the call sites of the script
    depends on the version and on the stack, so it is a parameter:
    [repr_depth] is the number of nested [repr] calls that still succeed
    there, the value itself being the first. *)
Record interpreter : Type := {
  int_max_str_digits : nat;
  repr_depth : nat
}.

(** The limit on digits as CPython ships it; the depth set to the default
    recursion limit. *)
Definition default_interpreter : interpreter :=
  {| int_max_str_digits := 4300; repr_depth := 1000 |}.

(** The integer has no more digits than the limit. *)
Definition int_fits (py : interpreter) (z : Z) : bool :=
  ((int_max_str_digits py =? 0)%nat
   || (Z.abs z <? 10 ^ Z.of_nat (int_max_str_digits py))%Z)%bool.

Definition str_int_under (py : interpreter) (z : Z) : result string :=
  if int_fits py z then Ok (str_int z) else Raise ValueError.

(** The texts in order, or the first exception met. *)
Fixpoint all_ok (rs : list (result string)) : result (list string) :=
  match rs with
  | [] => Ok []
  | r :: rs' => a <- r ;; rest <- all_ok rs' ;; Ok (a :: rest)
  end.

(** [repr(v)] with [depth] nested calls left: every value, container or
    not, takes one. *)
Fixpoint repr_under (py : interpreter) (depth : nat) (v : pyval) : result string :=
  match depth with
  | O => Raise RecursionError
  | S depth' =>
      match v with
      | PNone => Ok "None"
      | PBool true => Ok "True"
      | PBool false => Ok "False"
      | PInt z => str_int_under py z
      | PStr s => Ok (repr_str s)
      | PList l =>
          parts <- all_ok (map (repr_under py depth') l) ;;
          Ok ("[" ++ join ", " parts ++ "]")
      | PTuple l =>
          parts <- all_ok (map (repr_under py depth') l) ;;
          Ok (repr_tuple parts)
      | PDict l =>
          parts <- all_ok (map (fun kv =>
                                  k <- repr_under py depth' (fst kv) ;;
                                  a <- repr_under py depth' (snd kv) ;;
                                  Ok (k ++ ": " ++ a)) l) ;;
          Ok ("{" ++ join ", " parts ++ "}")
      end
  end.

(** [str(v)], also what an f-string field does with [v]. *)
Definition str_under (py : interpreter) (v : pyval) : result string :=
  match v with
  | PStr s => Ok s
  | _ => repr_under py (repr_depth py) v
  end.

(** Lines 65-66 and 126-127: [str(type_data)] first, then the fields of the
    f-string from left to right. *)
Definition typeinfo_line_under (py : interpreter) (i : nat)
    (type_name type_data : pyval) : result string :=
  data <- str_under py type_data ;;
  let formatted_data := replace_char squote dquote data in
  name <- str_under py type_name ;;
  index <- str_int_under py (Z.of_nat i) ;;
  Ok ("  { type: " ++ dq ++ name ++ dq ++ ", data: " ++ formatted_data
        ++ " }, // " ++ index).

(** The f-string of a dispatch-table entry, its fields from left to right. *)
Definition event_line_under (py : interpreter) (event_id type_id name : pyval)
    : result string :=
  key <- str_under py event_id ;;
  type_id <- str_under py type_id ;;
  name <- str_under py name ;;
  Ok ("  " ++ key ++ ": { typeId: " ++ type_id ++ ", name: " ++ dq ++ name ++ dq
        ++ " },").

(** The f-string of one constant declaration. *)
Definition constant_line_under (py : interpreter) (item : string * Z)
    : result string :=
  value <- str_int_under py (snd item) ;;
  Ok ("export const " ++ fst item ++ " = " ++ value ++ ";").

(** Console mode under the interpreter [py]. *)
Definition convert_typeinfos_to_typescript_under (py : interpreter)
    (d : descriptor) : io unit :=
  (print_ "// Generated TypeScript protocol definitions" ;;
   print_ "// Auto-generated from protocol typeinfos" ;;
   print_ EmptyString ;;
   print_ "export interface ProtocolTypeInfo {" ;;
   print_ "  type: string;" ;;
   print_ "  data: any[];" ;;
   print_ "}" ;;
   print_ EmptyString ;;
   print_ "export const protocolTypeinfos: ProtocolTypeInfo[] = [" ;;
   for_io (enumerate (typeinfos d)) (fun ie =>
     let i := fst ie in
     ' (type_name, type_data) <- io_lift (unpack2 (snd ie)) ;;
     ' line <- io_lift (typeinfo_line_under py i type_name type_data) ;;
     print_ line) ;;
   print_ "];" ;;
   print_ EmptyString ;;
   print_ "export const gameEventTypes: Record<number, { typeId: number; name: string }> = {" ;;
   for_io (game_event_types d) (fun item =>
     let event_id := fst item in
     ' (type_id, name) <- io_lift (unpack2 (snd item)) ;;
     ' line <- io_lift (event_line_under py event_id type_id name) ;;
     print_ line) ;;
   print_ "};" ;;
   print_ EmptyString ;;
   print_ "export const messageEventTypes: Record<number, { typeId: number; name: string }> = {" ;;
   for_io (message_event_types d) (fun item =>
     let event_id := fst item in
     ' (type_id, name) <- io_lift (unpack2 (snd item)) ;;
     ' line <- io_lift (event_line_under py event_id type_id name) ;;
     print_ line) ;;
   print_ "};" ;;
   print_ EmptyString ;;
   print_ "export const trackerEventTypes: Record<number, { typeId: number; name: string }> = {" ;;
   for_io (tracker_event_types d) (fun item =>
     let event_id := fst item in
     ' (type_id, name) <- io_lift (unpack2 (snd item)) ;;
     ' line <- io_lift (event_line_under py event_id type_id name) ;;
     print_ line) ;;
   print_ "};" ;;
   print_ EmptyString ;;
   print_ "// Important protocol type IDs" ;;
   ' line <- io_lift (constant_line_under py ("GAME_EVENTID_TYPEID", game_eventid_typeid d)) ;;
   print_ line ;;
   ' line <- io_lift (constant_line_under py ("MESSAGE_EVENTID_TYPEID", message_eventid_typeid d)) ;;
   print_ line ;;
   ' line <- io_lift (constant_line_under py ("TRACKER_EVENTID_TYPEID", tracker_eventid_typeid d)) ;;
   print_ line ;;
   ' line <- io_lift (constant_line_under py ("SVARUINT32_TYPEID", svaruint32_typeid d)) ;;
   print_ line ;;
   ' line <- io_lift (constant_line_under py ("REPLAY_USERID_TYPEID", replay_userid_typeid d)) ;;
   print_ line ;;
   ' line <- io_lift (constant_line_under py ("REPLAY_HEADER_TYPEID", replay_header_typeid d)) ;;
   print_ line ;;
   ' line <- io_lift (constant_line_under py ("GAME_DETAILS_TYPEID", game_details_typeid d)) ;;
   print_ line ;;
   ' line <- io_lift (constant_line_under py ("REPLAY_INITDATA_TYPEID", replay_initdata_typeid d)) ;;
   print_ line)%io.

(** File mode under the interpreter [py]. *)
Definition generate_typescript_protocol_file_under (py : interpreter)
    (d : descriptor) : result string :=
  let typescript_content := file_preamble in
  typescript_content <-
    for_content (enumerate (typeinfos d)) (fun ie =>
      let i := fst ie in
      ' (type_name, type_data) <- unpack2 (snd ie) ;;
      line <- typeinfo_line_under py i type_name type_data ;;
      Ok (line ++ nl)) typescript_content ;;
  let typescript_content := typescript_content ++ "];" ++ nl ++ nl in
  let typescript_content :=
    typescript_content ++ "export const gameEventTypes: Record<number, EventType> = {" ++ nl in
  typescript_content <-
    for_content (game_event_types d) (fun item =>
      let event_id := fst item in
      ' (type_id, name) <- unpack2 (snd item) ;;
      line <- event_line_under py event_id type_id name ;;
      Ok (line ++ nl)) typescript_content ;;
  let typescript_content := typescript_content ++ "};" ++ nl ++ nl in
  let typescript_content :=
    typescript_content ++ "export const messageEventTypes: Record<number, EventType> = {" ++ nl in
  typescript_content <-
    for_content (message_event_types d) (fun item =>
      let event_id := fst item in
      ' (type_id, name) <- unpack2 (snd item) ;;
      line <- event_line_under py event_id type_id name ;;
      Ok (line ++ nl)) typescript_content ;;
  let typescript_content := typescript_content ++ "};" ++ nl ++ nl in
  let typescript_content :=
    typescript_content ++ "export const trackerEventTypes: Record<number, EventType> = {" ++ nl in
  typescript_content <-
    for_content (tracker_event_types d) (fun item =>
      let event_id := fst item in
      ' (type_id, name) <- unpack2 (snd item) ;;
      line <- event_line_under py event_id type_id name ;;
      Ok (line ++ nl)) typescript_content ;;
  let typescript_content := typescript_content ++ "};" ++ nl ++ nl in
  c1 <- str_int_under py (game_eventid_typeid d) ;;
  c2 <- str_int_under py (message_eventid_typeid d) ;;
  c3 <- str_int_under py (tracker_eventid_typeid d) ;;
  c4 <- str_int_under py (svaruint32_typeid d) ;;
  c5 <- str_int_under py (replay_userid_typeid d) ;;
  c6 <- str_int_under py (replay_header_typeid d) ;;
  c7 <- str_int_under py (game_details_typeid d) ;;
  c8 <- str_int_under py (replay_initdata_typeid d) ;;
  let typescript_content :=
    typescript_content ++
    ("// Important protocol type IDs
export const GAME_EVENTID_TYPEID = " ++ c1 ++ ";
export const MESSAGE_EVENTID_TYPEID = " ++ c2 ++ ";
export const TRACKER_EVENTID_TYPEID = " ++ c3 ++ ";
export const SVARUINT32_TYPEID = " ++ c4 ++ ";
export const REPLAY_USERID_TYPEID = " ++ c5 ++ ";
export const REPLAY_HEADER_TYPEID = " ++ c6 ++ ";
export const GAME_DETAILS_TYPEID = " ++ c7 ++ ";
export const REPLAY_INITDATA_TYPEID = " ++ c8 ++ file_helpers) in
  Ok typescript_content.

(** ** Values [str] accepts *)

(** No integer in [v] has too many digits and [v] is nested at most [depth]
    deep, itself counted. *)
Fixpoint fits (py : interpreter) (depth : nat) (v : pyval) : bool :=
  match depth with
  | O => false
  | S depth' =>
      match v with
      | PInt z => int_fits py z
      | PList l | PTuple l => forallb (fits py depth') l
      | PDict l =>
          forallb (fun kv => fits py depth' (fst kv) && fits py depth' (snd kv)) l
      | PNone | PBool _ | PStr _ => true
      end
  end.

Definition str_fits (py : interpreter) (v : pyval) : bool :=
  match v with
  | PStr _ => true
  | _ => fits py (repr_depth py) v
  end.

Definition typeinfo_fits (py : interpreter) (ie : nat * pyval) : bool :=
  str_fits py (snd (the_pair (snd ie))) && str_fits py (fst (the_pair (snd ie)))
  && int_fits py (Z.of_nat (fst ie)).

Definition item_fits (py : interpreter) (item : pyval * pyval) : bool :=
  str_fits py (fst item) && str_fits py (fst (the_pair (snd item)))
  && str_fits py (snd (the_pair (snd item))).

(** Every value the routines pass to [str] is one it accepts: the names and
    data of the catalog with their indices, the keys, type ids and names of
    the tables, and the eight constants. *)
Definition within_limits (py : interpreter) (d : descriptor) : bool :=
  forallb (typeinfo_fits py) (enumerate (typeinfos d))
  && forallb (item_fits py) (game_event_types d)
  && forallb (item_fits py) (message_event_types d)
  && forallb (item_fits py) (tracker_event_types d)
  && forallb (int_fits py) (constants_of d).

(** Every entry unpacks and every value is one [str] accepts. *)
Definition renderable (py : interpreter) (d : descriptor) : bool :=
  well_shaped d && within_limits py d.

(** The catalog entry [snd ie] at index [fst ie] renders. *)
Definition typeinfo_renders (py : interpreter) (ie : nat * pyval) : bool :=
  unpacks (snd ie) && typeinfo_fits py ie.

(** [line] is the output line of the catalog entry [snd ie] at index
    [fst ie]. *)
Definition renders_typeinfo (ie : nat * pyval) (line : string) : Prop :=
  exists type_name type_data,
    unpack2 (snd ie) = Ok (type_name, type_data)
    /\ line = "  { type: " ++ dq ++ py_format type_name ++ dq ++ ", data: "
              ++ replace_char squote dquote (py_str type_data)
              ++ " }, // " ++ str_nat (fst ie).

(** A document from its head, the opening lines of its tables and the lines
    of its entries and constants. *)
Definition assemble (head : list string) (table_open : string -> list string)
    (catalog game message tracker constants : list string) : list string :=
  head ++ catalog
    ++ ["];"; EmptyString] ++ table_open "gameEventTypes" ++ game
    ++ ["};"; EmptyString] ++ table_open "messageEventTypes" ++ message
    ++ ["};"; EmptyString] ++ table_open "trackerEventTypes" ++ tracker
    ++ ["};"; EmptyString] ++ constants.

(** The names and values of the eight constants, in the order they are
    written. *)
Definition constant_items (d : descriptor) : list (string * Z) :=
  [ ("GAME_EVENTID_TYPEID", game_eventid_typeid d);
    ("MESSAGE_EVENTID_TYPEID", message_eventid_typeid d);
    ("TRACKER_EVENTID_TYPEID", tracker_eventid_typeid d);
    ("SVARUINT32_TYPEID", svaruint32_typeid d);
    ("REPLAY_USERID_TYPEID", replay_userid_typeid d);
    ("REPLAY_HEADER_TYPEID", replay_header_typeid d);
    ("GAME_DETAILS_TYPEID", game_details_typeid d);
    ("REPLAY_INITDATA_TYPEID", replay_initdata_typeid d) ].

Definition catalog_line_under (py : interpreter) (ie : nat * pyval)
    : result string :=
  ' (type_name, type_data) <- unpack2 (snd ie) ;;
  typeinfo_line_under py (fst ie) type_name type_data.

Definition table_line_under (py : interpreter) (item : pyval * pyval)
    : result string :=
  ' (type_id, name) <- unpack2 (snd item) ;;
  event_line_under py (fst item) type_id name.

(** ** The script run as a program *)

(** How a run ends when it does not reach its last statement: an exception
    of the rendering left uncaught, [open] or the device refusing, or the
    text not being encodable in the encoding of the file. *)
Inductive main_exn : Type :=
| Uncaught (e : pyexn)
| OSError
| UnicodeEncodeError.

(** What a run can see and change: the standard output stream and the file
    [protocol.ts] of the working directory ([None] while it does not
    exist).  What it meets: whether [open] can create or truncate the file,
    and, for each text, whether writing it goes through ([None]) or fails
    with an exception, leaving some text in the file that [open] had
    emptied. *)
Record world : Type := {
  stdout : string;
  protocol_ts : option string;
  writable : bool;
  write_fault : string -> option (main_exn * string)
}.

Definition set_stdout (w : world) (out : string) : world :=
  {| stdout := out; protocol_ts := protocol_ts w; writable := writable w;
     write_fault := write_fault w |}.

Definition set_protocol_ts (w : world) (content : string) : world :=
  {| stdout := stdout w; protocol_ts := Some content; writable := writable w;
     write_fault := write_fault w |}.

(** The block the script runs as a program (its last twelve lines), given
    [sys.argv], under the interpreter [py]. *)
Definition main (py : interpreter) (argv : list string) (d : descriptor) (w : world)
    : option main_exn * world :=
  if ((1 <? List.length argv)%nat && (nth 1 argv EmptyString =? "--generate-file"))%bool
  then
    match generate_typescript_protocol_file_under py d with
    | Raise e => (Some (Uncaught e), w)
    | Ok content =>
        if writable w then
          match write_fault w content with
          | Some (e, remains) => (Some e, set_protocol_ts w remains)
          | None =>
              let w' := set_protocol_ts w content in
              (None, set_stdout w' (snd (print_ "Generated protocol.ts file" (stdout w'))))
          end
        else (Some OSError, w)
    end
  else
    match convert_typeinfos_to_typescript_under py d (stdout w) with
    | (Ok _, out) => (None, set_stdout w out)
    | (Raise e, out) => (Some (Uncaught e), set_stdout w out)
    end.

(** ** More sample descriptors *)

(** A pair entry whose data holds the integer [10 ^ 4300], of 4301 digits. *)
Definition big_int_descriptor : descriptor :=
  with_typeinfos [ PTuple [PStr "_int"; PList [PInt (10 ^ 4300)]] ].

(** The header bindings with the game table replaced. *)
Definition with_game_events (t : list (pyval * pyval)) : descriptor := {|
  typeinfos := [];
  game_event_types := t;
  game_eventid_typeid := 0;
  message_event_types := [];
  message_eventid_typeid := 1;
  tracker_event_types := [];
  tracker_eventid_typeid := 2;
  svaruint32_typeid := 7;
  replay_userid_typeid := 8;
  replay_header_typeid := 18;
  game_details_typeid := 40;
  replay_initdata_typeid := 73
|}.

(** A game event whose name holds a double quote. *)
Definition quoted_event_descriptor : descriptor :=
  with_game_events [ (PInt 0, PTuple [PInt 1; PStr ("a" ++ dq ++ "b")]) ].

(** A game event whose name holds a line break. *)
Definition two_line_event_descriptor : descriptor :=
  with_game_events [ (PInt 0, PTuple [PInt 1; PStr ("a" ++ nl ++ "b")]) ].

(** A catalog entry whose name holds a line break followed by the opening
    of a function declaration. *)
Definition injected_descriptor : descriptor :=
  with_typeinfos
    [ PTuple [PStr ("x" ++ nl ++ "export function extra(): void {"); PList []] ].

(** * Properties *)

(** ** Text lemmas *)

Lemma append_assoc (a b c : string) : (a ++ b) ++ c = a ++ b ++ c.
Proof.
  induction a as [|x a IH]; simpl; [reflexivity | now rewrite IH].
Qed.

Lemma append_nil_r (a : string) : a ++ EmptyString = a.
Proof.
  induction a as [|x a IH]; simpl; [reflexivity | now rewrite IH].
Qed.

Lemma unlines_app (xs ys : list string) :
  unlines (xs ++ ys) = unlines xs ++ unlines ys.
Proof.
  induction xs as [|x xs IH]; simpl; [reflexivity|].
  now rewrite IH, !append_assoc.
Qed.

(** ** The loops *)

Section Loops.
Context {X : Type} (line : X -> result string).

Variable body : X -> io unit.
Hypothesis body_line :
  forall x out,
    body x out =
    match line x with
    | Ok s => (Ok tt, out ++ s ++ nl)
    | Raise e => (Raise e, out)
    end.

Lemma for_io_scan (xs : list X) (out : string) :
  for_io xs body out =
  (match snd (scan line xs) with None => Ok tt | Some e => Raise e end,
   out ++ fst (scan line xs)).
Proof.
  revert out; induction xs as [|x xs IH]; intros out; simpl.
  - unfold io_ret. now rewrite append_nil_r.
  - unfold io_bind. rewrite body_line.
    destruct (line x) as [s|e]; simpl.
    + rewrite IH. now rewrite !append_assoc.
    + now rewrite append_nil_r.
Qed.

Variable chunk : X -> result string.
Hypothesis chunk_line :
  forall x,
    chunk x = match line x with Ok s => Ok (s ++ nl) | Raise e => Raise e end.

Lemma for_content_scan (xs : list X) (content : string) :
  for_content xs chunk content =
  match snd (scan line xs) with
  | None => Ok (content ++ fst (scan line xs))
  | Some e => Raise e
  end.
Proof.
  revert content; induction xs as [|x xs IH]; intros content; simpl.
  - now rewrite append_nil_r.
  - rewrite chunk_line. destruct (line x) as [s|e]; simpl; [|reflexivity].
    rewrite IH. destruct (snd (scan line xs)); [reflexivity|].
    now rewrite !append_assoc.
Qed.

(** A pass over entries that all yield a line emits exactly those lines,
    in order. *)
Lemma scan_all_ok (f : X -> string) (xs : list X) :
  (forall x, In x xs -> line x = Ok (f x)) ->
  scan line xs = (unlines (map f xs), None).
Proof.
  induction xs as [|x xs IH]; intros H; simpl; [reflexivity|].
  rewrite (H x (or_introl eq_refl)).
  rewrite IH by (intros y Hy; apply H; now right).
  reflexivity.
Qed.

(** A pass stops at the first entry that yields no line. *)
Lemma scan_first_failure (f : X -> string) (xs ys : list X) (x : X) (e : pyexn) :
  (forall y, In y xs -> line y = Ok (f y)) ->
  line x = Raise e ->
  scan line (xs ++ x :: ys) = (unlines (map f xs), Some e).
Proof.
  induction xs as [|y xs IH]; intros H Hx; simpl.
  - now rewrite Hx.
  - rewrite (H y (or_introl eq_refl)).
    rewrite IH by (try assumption; intros z Hz; apply H; now right).
    reflexivity.
Qed.
End Loops.

(** ** Closed forms of the two routines *)

Lemma print_then {B : Type} (s : string) (k : unit -> io B) (out : string) :
  io_bind (print_ s) k out = k tt (out ++ s ++ nl).
Proof. reflexivity. Qed.

Lemma for_io_then {X B : Type} (line : X -> result string) (body : X -> io unit)
    (xs : list X) (k : unit -> io B) (out : string) :
  (forall x o,
     body x o =
     match line x with
     | Ok s => (Ok tt, o ++ s ++ nl)
     | Raise e => (Raise e, o)
     end) ->
  io_bind (for_io xs body) k out =
  after (scan line xs) (fun e t => (Raise e, t)) out (k tt).
Proof.
  intros H. unfold io_bind, after. rewrite (for_io_scan line body H).
  now destruct (snd (scan line xs)).
Qed.

Lemma for_content_then {X : Type} (line : X -> result string)
    (chunk : X -> result string) (xs : list X) (content : string)
    (k : string -> result string) :
  (forall x,
     chunk x = match line x with Ok s => Ok (s ++ nl) | Raise e => Raise e end) ->
  bind (for_content xs chunk content) k =
  after (scan line xs) (fun e _ => Raise e) content k.
Proof.
  intros H. unfold after. rewrite (for_content_scan line chunk H).
  now destruct (snd (scan line xs)).
Qed.

Lemma catalog_body (ie : nat * pyval) (o : string) :
  io_bind (io_lift (unpack2 (snd ie)))
    (fun x => match x with
              | (type_name, type_data) => print_ (typeinfo_line (fst ie) type_name type_data)
              end) o =
  match catalog_line ie with
  | Ok s => (Ok tt, o ++ s ++ nl)
  | Raise e => (Raise e, o)
  end.
Proof.
  unfold catalog_line, io_bind, io_lift, bind.
  now destruct (unpack2 (snd ie)) as [[a b]|e].
Qed.

Lemma table_body (item : pyval * pyval) (o : string) :
  io_bind (io_lift (unpack2 (snd item)))
    (fun x => match x with
              | (type_id, name) => print_ (event_line (fst item) type_id name)
              end) o =
  match table_line item with
  | Ok s => (Ok tt, o ++ s ++ nl)
  | Raise e => (Raise e, o)
  end.
Proof.
  unfold table_line, io_bind, io_lift, bind.
  now destruct (unpack2 (snd item)) as [[a b]|e].
Qed.

Lemma catalog_chunk (ie : nat * pyval) :
  bind (unpack2 (snd ie))
    (fun x => match x with
              | (type_name, type_data) =>
                  Ok (typeinfo_line (fst ie) type_name type_data ++ nl)
              end) =
  match catalog_line ie with Ok s => Ok (s ++ nl) | Raise e => Raise e end.
Proof.
  unfold catalog_line, bind. now destruct (unpack2 (snd ie)) as [[a b]|e].
Qed.

Lemma table_chunk (item : pyval * pyval) :
  bind (unpack2 (snd item))
    (fun x => match x with
              | (type_id, name) => Ok (event_line (fst item) type_id name ++ nl)
              end) =
  match table_line item with Ok s => Ok (s ++ nl) | Raise e => Raise e end.
Proof.
  unfold table_line, bind. now destruct (unpack2 (snd item)) as [[a b]|e].
Qed.

(** Both sides are the same chunks of text, differently bracketed. *)
Ltac norm_text :=
  f_equal;
  cbn [unlines console_head console_table_open file_table_open
       constant_lines helper_lines app];
  rewrite ?append_assoc; cbn [append]; reflexivity.

(** Console mode as four passes separated by fixed lines. *)
Lemma convert_closed_form (d : descriptor) (out : string) :
  convert_typeinfos_to_typescript d out =
  let stop := fun e t => (@Raise unit e, t) in
  after (scan catalog_line (enumerate (typeinfos d))) stop
    (out ++ unlines console_head) (fun t1 =>
  after (scan table_line (game_event_types d)) stop
    (t1 ++ unlines (["];"; EmptyString] ++ console_table_open "gameEventTypes")) (fun t2 =>
  after (scan table_line (message_event_types d)) stop
    (t2 ++ unlines (["};"; EmptyString] ++ console_table_open "messageEventTypes")) (fun t3 =>
  after (scan table_line (tracker_event_types d)) stop
    (t3 ++ unlines (["};"; EmptyString] ++ console_table_open "trackerEventTypes")) (fun t4 =>
  (Ok tt, t4 ++ unlines (["};"; EmptyString] ++ constant_lines d)))))).
Proof.
  unfold convert_typeinfos_to_typescript.
  rewrite !print_then.
  rewrite (for_io_then catalog_line) by apply catalog_body.
  cbv zeta. unfold after.
  destruct (snd (scan catalog_line (enumerate (typeinfos d)))); [norm_text|].
  rewrite !print_then.
  rewrite (for_io_then table_line) by apply table_body. unfold after.
  destruct (snd (scan table_line (game_event_types d))); [norm_text|].
  rewrite !print_then.
  rewrite (for_io_then table_line) by apply table_body. unfold after.
  destruct (snd (scan table_line (message_event_types d))); [norm_text|].
  rewrite !print_then.
  rewrite (for_io_then table_line) by apply table_body. unfold after.
  destruct (snd (scan table_line (tracker_event_types d))); [norm_text|].
  rewrite !print_then. unfold print_. norm_text.
Qed.

(** File mode as the same four passes. *)
Lemma generate_closed_form (d : descriptor) :
  generate_typescript_protocol_file d =
  let stop := fun e (_ : string) => @Raise string e in
  after (scan catalog_line (enumerate (typeinfos d))) stop
    file_preamble (fun t1 =>
  after (scan table_line (game_event_types d)) stop
    (t1 ++ unlines (["];"; EmptyString] ++ file_table_open "gameEventTypes")) (fun t2 =>
  after (scan table_line (message_event_types d)) stop
    (t2 ++ unlines (["};"; EmptyString] ++ file_table_open "messageEventTypes")) (fun t3 =>
  after (scan table_line (tracker_event_types d)) stop
    (t3 ++ unlines (["};"; EmptyString] ++ file_table_open "trackerEventTypes")) (fun t4 =>
  Ok (t4 ++ unlines (["};"; EmptyString] ++ constant_lines d ++ helper_lines)))))).
Proof.
  unfold generate_typescript_protocol_file. cbv zeta.
  rewrite (for_content_then catalog_line) by apply catalog_chunk. unfold after.
  destruct (snd (scan catalog_line (enumerate (typeinfos d)))); [reflexivity|].
  rewrite (for_content_then table_line) by apply table_chunk. unfold after.
  destruct (snd (scan table_line (game_event_types d))); [reflexivity|].
  rewrite (for_content_then table_line) by apply table_chunk. unfold after.
  destruct (snd (scan table_line (message_event_types d))); [reflexivity|].
  rewrite (for_content_then table_line) by apply table_chunk. unfold after.
  destruct (snd (scan table_line (tracker_event_types d))); [reflexivity|].
  f_equal.
  cbn [unlines file_table_open constant_lines helper_lines app].
  rewrite ?append_assoc. unfold file_helpers, nl. cbn [append]. reflexivity.
Qed.

(** ** Descriptors whose entries all unpack *)

Lemma file_preamble_lines : file_preamble = unlines file_head.
Proof. reflexivity. Qed.

Lemma the_pair_unpack (v a b : pyval) : unpack2 v = Ok (a, b) -> the_pair v = (a, b).
Proof. unfold the_pair. now intros ->. Qed.

Lemma unpacks_pair (v : pyval) : unpacks v = true -> unpack2 v = Ok (the_pair v).
Proof. unfold unpacks, the_pair. now destruct (unpack2 v). Qed.

Lemma in_enumerate_from {A : Type} (l : list A) (n : nat) (ie : nat * A) :
  In ie (enumerate_from n l) -> In (snd ie) l.
Proof.
  revert n; induction l as [|x l IH]; intros n; simpl; [tauto|].
  intros [<- | H]; [now left | right; eauto].
Qed.

Lemma enumerate_from_app {A : Type} (xs ys : list A) (n : nat) :
  enumerate_from n (xs ++ ys) =
  (enumerate_from n xs ++ enumerate_from (n + List.length xs) ys)%list.
Proof.
  revert n; induction xs as [|x xs IH]; intros n; simpl.
  - now rewrite Nat.add_0_r.
  - now rewrite IH, Nat.add_succ_r.
Qed.

Lemma enumerate_from_length {A : Type} (l : list A) (n : nat) :
  List.length (enumerate_from n l) = List.length l.
Proof. revert n; induction l; intros n; simpl; [reflexivity | now rewrite IHl]. Qed.

Lemma enumerate_from_nth {A : Type} (l : list A) (n i : nat) (x : A) :
  nth_error l i = Some x -> nth_error (enumerate_from n l) i = Some (n + i, x).
Proof.
  revert n i; induction l as [|y l IH]; intros n [|i]; simpl; try discriminate.
  - intros [= ->]. now rewrite Nat.add_0_r.
  - intros H. rewrite (IH (S n) i H). now rewrite Nat.add_succ_r.
Qed.

Lemma catalog_scan_ok (l : list pyval) (n : nat) :
  forallb unpacks l = true ->
  scan catalog_line (enumerate_from n l) =
  (unlines (map catalog_entry (enumerate_from n l)), None).
Proof.
  intros H. apply scan_all_ok. intros ie Hin.
  apply in_enumerate_from in Hin.
  rewrite forallb_forall in H. specialize (H _ Hin).
  unfold catalog_line, catalog_entry. rewrite (unpacks_pair _ H).
  now destruct (the_pair (snd ie)).
Qed.

Lemma table_scan_ok (t : list (pyval * pyval)) :
  forallb (fun item => unpacks (snd item)) t = true ->
  scan table_line t = (unlines (map table_entry t), None).
Proof.
  intros H. apply scan_all_ok. intros item Hin.
  rewrite forallb_forall in H. specialize (H _ Hin). cbv beta in H.
  unfold table_line, table_entry. rewrite (unpacks_pair _ H).
  now destruct (the_pair (snd item)).
Qed.

Lemma well_shaped_parts (d : descriptor) :
  well_shaped d = true ->
  forallb unpacks (typeinfos d) = true
  /\ forallb (fun item => unpacks (snd item)) (game_event_types d) = true
  /\ forallb (fun item => unpacks (snd item)) (message_event_types d) = true
  /\ forallb (fun item => unpacks (snd item)) (tracker_event_types d) = true.
Proof.
  unfold well_shaped. rewrite !andb_true_iff. tauto.
Qed.

(** On such a descriptor console mode prints [console_lines] and nothing
    else, whatever the stream held before. *)
Lemma convert_well_shaped (d : descriptor) (out : string) :
  well_shaped d = true ->
  convert_typeinfos_to_typescript d out = (Ok tt, out ++ unlines (console_lines d)).
Proof.
  intros H. apply well_shaped_parts in H. destruct H as (Hc & Hg & Hm & Ht).
  rewrite convert_closed_form. cbv zeta. unfold after, enumerate.
  rewrite (catalog_scan_ok _ 0 Hc), (table_scan_ok _ Hg), (table_scan_ok _ Hm),
    (table_scan_ok _ Ht).
  cbn [fst snd]. f_equal. unfold console_lines, body_lines, enumerate.
  rewrite !unlines_app, !append_assoc. reflexivity.
Qed.

(** And file mode returns [file_lines]. *)
Lemma generate_well_shaped (d : descriptor) :
  well_shaped d = true ->
  generate_typescript_protocol_file d = Ok (unlines (file_lines d)).
Proof.
  intros H. apply well_shaped_parts in H. destruct H as (Hc & Hg & Hm & Ht).
  rewrite generate_closed_form. cbv zeta. unfold after, enumerate.
  rewrite (catalog_scan_ok _ 0 Hc), (table_scan_ok _ Hg), (table_scan_ok _ Hm),
    (table_scan_ok _ Ht).
  cbn [fst snd]. f_equal. unfold file_lines, body_lines, enumerate.
  rewrite file_preamble_lines, !unlines_app, !append_assoc. reflexivity.
Qed.

(** ** Descriptors with an entry that does not unpack *)

Lemma scan_none {X : Type} (line : X -> result string) (xs : list X) :
  snd (scan line xs) = None -> forallb (fun x => is_ok (line x)) xs = true.
Proof.
  induction xs as [|x xs IH]; simpl; [reflexivity|].
  destruct (line x) as [s|e]; simpl; [assumption | discriminate].
Qed.

Lemma is_ok_catalog_line (ie : nat * pyval) :
  is_ok (catalog_line ie) = unpacks (snd ie).
Proof.
  unfold catalog_line, unpacks, bind. now destruct (unpack2 (snd ie)) as [[a b]|e].
Qed.

Lemma is_ok_table_line (item : pyval * pyval) :
  is_ok (table_line item) = unpacks (snd item).
Proof.
  unfold table_line, unpacks, bind. now destruct (unpack2 (snd item)) as [[a b]|e].
Qed.

Lemma forallb_enumerate_from {A : Type} (p : A -> bool) (l : list A) (n : nat) :
  forallb (fun ie => p (snd ie)) (enumerate_from n l) = forallb p l.
Proof.
  revert n; induction l as [|x l IH]; intros n; simpl; [reflexivity|].
  now rewrite IH.
Qed.

Lemma forallb_eq {A : Type} (p q : A -> bool) (l : list A) :
  (forall x, p x = q x) -> forallb p l = forallb q l.
Proof.
  intros H. induction l as [|x l IH]; simpl; [reflexivity | now rewrite H, IH].
Qed.

Lemma catalog_scan_none (l : list pyval) :
  snd (scan catalog_line (enumerate l)) = None -> forallb unpacks l = true.
Proof.
  intros H. apply scan_none in H.
  rewrite <- (forallb_enumerate_from unpacks l 0).
  rewrite <- H. apply forallb_eq. intros ie. now rewrite is_ok_catalog_line.
Qed.

Lemma table_scan_none (t : list (pyval * pyval)) :
  snd (scan table_line t) = None ->
  forallb (fun item => unpacks (snd item)) t = true.
Proof.
  intros H. apply scan_none in H.
  rewrite <- H. apply forallb_eq. intros item. now rewrite is_ok_table_line.
Qed.

(** The two routines stop at the same entry with the same exception; file
    mode then has no text to return, console mode has printed its head and
    whatever came before the entry. *)
Lemma ill_shaped_raises (d : descriptor) :
  well_shaped d = false ->
  exists (e : pyexn) (partial : string),
    generate_typescript_protocol_file d = Raise e
    /\ forall out,
         convert_typeinfos_to_typescript d out =
         (Raise e, out ++ unlines console_head ++ partial).
Proof.
  intros H. rewrite generate_closed_form.
  assert (Hc := convert_closed_form d). cbv zeta in *. unfold after in *.
  destruct (snd (scan catalog_line (enumerate (typeinfos d)))) as [e|] eqn:E1.
  { exists e; eexists; split; [reflexivity|]. intros out.
    rewrite Hc, append_assoc. reflexivity. }
  destruct (snd (scan table_line (game_event_types d))) as [e|] eqn:E2.
  { exists e; eexists; split; [reflexivity|]. intros out.
    rewrite Hc, !append_assoc. reflexivity. }
  destruct (snd (scan table_line (message_event_types d))) as [e|] eqn:E3.
  { exists e; eexists; split; [reflexivity|]. intros out.
    rewrite Hc, !append_assoc. reflexivity. }
  destruct (snd (scan table_line (tracker_event_types d))) as [e|] eqn:E4.
  { exists e; eexists; split; [reflexivity|]. intros out.
    rewrite Hc, !append_assoc. reflexivity. }
  exfalso. unfold well_shaped in H.
  rewrite (catalog_scan_none _ E1), (table_scan_none _ E2), (table_scan_none _ E3),
    (table_scan_none _ E4) in H.
  discriminate.
Qed.

(** ** Decimal numerals *)

Lemma str_int_inj (a b : Z) : str_int a = str_int b -> a = b.
Proof.
  unfold str_int. intros H. apply DecimalZ.to_int_inj.
  assert (E : Some (Z.to_int a) = Some (Z.to_int b)).
  { rewrite <- !NilEmpty.isi. now rewrite H. }
  now injection E.
Qed.


(** ** The catalog *)

Lemma catalog_entry_nth (l : list pyval) (i : nat) (e type_name type_data : pyval) :
  nth_error l i = Some e ->
  unpack2 e = Ok (type_name, type_data) ->
  nth_error (map catalog_entry (enumerate l)) i =
  Some (typeinfo_line i type_name type_data).
Proof.
  intros Hn Hu. unfold enumerate.
  rewrite nth_error_map, (enumerate_from_nth l 0 i e Hn). simpl.
  unfold catalog_entry. simpl. now rewrite (the_pair_unpack _ _ _ Hu).
Qed.



(** ** The dispatch tables *)

Lemma table_entry_renders (t : list (pyval * pyval)) :
  forallb (fun item => unpacks (snd item)) t = true ->
  Forall2 renders_entry t (map table_entry t).
Proof.
  induction t as [|item t IH]; simpl; intros H; [constructor|].
  apply andb_true_iff in H. destruct H as [Hi Ht].
  constructor; [|now apply IH].
  exists (fst (the_pair (snd item))), (snd (the_pair (snd item))).
  split; [|reflexivity].
  rewrite (unpacks_pair _ Hi). now destruct (the_pair (snd item)).
Qed.

(** X11 -- Entry order of the dispatch tables.  In both documents each of
    the three mapping literals consists, between its opening line and its
    closing line, of one chunk (one [print] call, one [+=]) per item of the
    input mapping, in the order [items()] yields them: the chunks and the
    items correspond one to one, position by position, so nothing is added,
    dropped or reordered. *)
Theorem dispatch_tables_keep_order (d : descriptor) (out : string) :
  well_shaped d = true ->
  exists catalog game message tracker constants : list string,
    Forall2 renders_entry (game_event_types d) game
    /\ Forall2 renders_entry (message_event_types d) message
    /\ Forall2 renders_entry (tracker_event_types d) tracker
    /\ convert_typeinfos_to_typescript d out =
       (Ok tt,
        out ++ unlines
          (console_head ++ catalog
           ++ ["];"; EmptyString;
               "export const gameEventTypes: Record<number, { typeId: number; name: string }> = {"]
           ++ game
           ++ ["};"; EmptyString;
               "export const messageEventTypes: Record<number, { typeId: number; name: string }> = {"]
           ++ message
           ++ ["};"; EmptyString;
               "export const trackerEventTypes: Record<number, { typeId: number; name: string }> = {"]
           ++ tracker
           ++ ["};"; EmptyString] ++ constants))
    /\ generate_typescript_protocol_file d =
       Ok (unlines
          (file_head ++ catalog
           ++ ["];"; EmptyString;
               "export const gameEventTypes: Record<number, EventType> = {"]
           ++ game
           ++ ["};"; EmptyString;
               "export const messageEventTypes: Record<number, EventType> = {"]
           ++ message
           ++ ["};"; EmptyString;
               "export const trackerEventTypes: Record<number, EventType> = {"]
           ++ tracker
           ++ ["};"; EmptyString] ++ constants ++ helper_lines)).
Proof.
  intros H. destruct (well_shaped_parts d H) as (_ & Hg & Hm & Ht).
  exists (map catalog_entry (enumerate (typeinfos d))),
    (map table_entry (game_event_types d)),
    (map table_entry (message_event_types d)),
    (map table_entry (tracker_event_types d)),
    (constant_lines d).
  repeat split; try now apply table_entry_renders.
  - now rewrite (convert_well_shaped d out H).
  - rewrite (generate_well_shaped d H). unfold file_lines, body_lines.
    now rewrite <- !app_assoc.
Qed.

Lemma dispatch_tables_keep_order_witness :
  well_shaped sample_descriptor = true
  /\ exists game : list string,
       Forall2 renders_entry (game_event_types sample_descriptor) game.
Proof.
  split; [reflexivity|].
  destruct (dispatch_tables_keep_order sample_descriptor EmptyString eq_refl)
    as (_ & game & _ & _ & _ & Hg & _).
  exists game. exact Hg.
Defined.





(** ** Totality *)


Lemma body_lines_length (head : list string) (table_open : string -> list string)
    (d : descriptor) :
  (forall n, List.length (table_open n) = 1%nat) ->
  List.length (body_lines head table_open d) =
  (List.length head + 20
   + List.length (typeinfos d) + List.length (game_event_types d)
   + List.length (message_event_types d) + List.length (tracker_event_types d))%nat.
Proof.
  intros Ho. unfold body_lines, enumerate.
  rewrite !length_app, !length_map, enumerate_from_length, !Ho. simpl. lia.
Qed.


(** ** The accessor block *)

Lemma filter_map_none {A B : Type} (p : B -> bool) (f : A -> B) (l : list A) :
  (forall x, p (f x) = false) -> filter p (map f l) = [].
Proof.
  intros H. induction l as [|x l IH]; simpl; [reflexivity|].
  now rewrite H.
Qed.

Lemma catalog_entry_no_function (ie : nat * pyval) :
  declares_function (catalog_entry ie) = false.
Proof. reflexivity. Qed.

Lemma table_entry_no_function (item : pyval * pyval) :
  declares_function (table_entry item) = false.
Proof. reflexivity. Qed.

Lemma body_lines_no_function (head : list string)
    (table_open : string -> list string) (d : descriptor) :
  filter declares_function head = [] ->
  (forall n, filter declares_function (table_open n) = []) ->
  filter declares_function (body_lines head table_open d) = [].
Proof.
  intros Hh Ho. unfold body_lines.
  rewrite !filter_app, Hh, !Ho.
  rewrite !(filter_map_none declares_function) by
    (apply catalog_entry_no_function || apply table_entry_no_function).
  reflexivity.
Qed.

(** ** The constants and the header scenario *)

(** C6 -- Empty descriptor and constant fidelity.  With the bindings of the
    script's header (empty catalog, three empty tables, the constants 0, 1,
    2, 7, 8, 18, 40, 73) the two documents are the texts below: the catalog
    is the empty array literal [[ ]], each table the empty object literal
    [{ }], and the eight constants follow in the order of the header.  On
    every descriptor that renders, each document holds the eight constant
    declarations, each bound to the decimal numeral of its input value, and
    that numeral denotes no other integer. *)
Theorem header_scenario_and_constants :
  generate_typescript_protocol_file header_descriptor =
  Ok "// Auto-generated TypeScript protocol definitions
// Generated from StarCraft II protocol specification

export interface ProtocolTypeInfo {
  type: string;
  data: any[];
}

export interface EventType {
  typeId: number;
  name: string;
}

// Protocol type information array
export const protocolTypeinfos: ProtocolTypeInfo[] = [
];

export const gameEventTypes: Record<number, EventType> = {
};

export const messageEventTypes: Record<number, EventType> = {
};

export const trackerEventTypes: Record<number, EventType> = {
};

// Important protocol type IDs
export const GAME_EVENTID_TYPEID = 0;
export const MESSAGE_EVENTID_TYPEID = 1;
export const TRACKER_EVENTID_TYPEID = 2;
export const SVARUINT32_TYPEID = 7;
export const REPLAY_USERID_TYPEID = 8;
export const REPLAY_HEADER_TYPEID = 18;
export const GAME_DETAILS_TYPEID = 40;
export const REPLAY_INITDATA_TYPEID = 73;

// Helper functions for protocol parsing
export function getTypeInfo(typeId: number): ProtocolTypeInfo | undefined {
  return protocolTypeinfos[typeId];
}

export function getGameEventType(eventId: number): EventType | undefined {
  return gameEventTypes[eventId];
}

export function getMessageEventType(eventId: number): EventType | undefined {
  return messageEventTypes[eventId];
}

export function getTrackerEventType(eventId: number): EventType | undefined {
  return trackerEventTypes[eventId];
}
"
  /\ convert_typeinfos_to_typescript header_descriptor EmptyString =
     (Ok tt,
      "// Generated TypeScript protocol definitions
// Auto-generated from protocol typeinfos

export interface ProtocolTypeInfo {
  type: string;
  data: any[];
}

export const protocolTypeinfos: ProtocolTypeInfo[] = [
];

export const gameEventTypes: Record<number, { typeId: number; name: string }> = {
};

export const messageEventTypes: Record<number, { typeId: number; name: string }> = {
};

export const trackerEventTypes: Record<number, { typeId: number; name: string }> = {
};

// Important protocol type IDs
export const GAME_EVENTID_TYPEID = 0;
export const MESSAGE_EVENTID_TYPEID = 1;
export const TRACKER_EVENTID_TYPEID = 2;
export const SVARUINT32_TYPEID = 7;
export const REPLAY_USERID_TYPEID = 8;
export const REPLAY_HEADER_TYPEID = 18;
export const GAME_DETAILS_TYPEID = 40;
export const REPLAY_INITDATA_TYPEID = 73;
")
  /\ (forall (d : descriptor) (out : string),
        well_shaped d = true ->
        let constants :=
          [ "export const GAME_EVENTID_TYPEID = " ++ str_int (game_eventid_typeid d) ++ ";";
            "export const MESSAGE_EVENTID_TYPEID = " ++ str_int (message_eventid_typeid d) ++ ";";
            "export const TRACKER_EVENTID_TYPEID = " ++ str_int (tracker_eventid_typeid d) ++ ";";
            "export const SVARUINT32_TYPEID = " ++ str_int (svaruint32_typeid d) ++ ";";
            "export const REPLAY_USERID_TYPEID = " ++ str_int (replay_userid_typeid d) ++ ";";
            "export const REPLAY_HEADER_TYPEID = " ++ str_int (replay_header_typeid d) ++ ";";
            "export const GAME_DETAILS_TYPEID = " ++ str_int (game_details_typeid d) ++ ";";
            "export const REPLAY_INITDATA_TYPEID = " ++ str_int (replay_initdata_typeid d) ++ ";" ] in
        exists console_before file_before : list string,
          convert_typeinfos_to_typescript d out =
          (Ok tt, out ++ unlines (console_before ++ constants))
          /\ generate_typescript_protocol_file d =
             Ok (unlines (file_before ++ constants ++ helper_lines)))
  /\ (forall a b : Z, str_int a = str_int b -> a = b).
Proof.
  split; [reflexivity|]. split; [reflexivity|]. split; [|exact str_int_inj].
  intros d out H constants.
  exists (console_head ++ map catalog_entry (enumerate (typeinfos d))
    ++ ["];"; EmptyString] ++ console_table_open "gameEventTypes"
    ++ map table_entry (game_event_types d)
    ++ ["};"; EmptyString] ++ console_table_open "messageEventTypes"
    ++ map table_entry (message_event_types d)
    ++ ["};"; EmptyString] ++ console_table_open "trackerEventTypes"
    ++ map table_entry (tracker_event_types d)
    ++ ["};"; EmptyString; "// Important protocol type IDs"])%list,
    (file_head ++ map catalog_entry (enumerate (typeinfos d))
    ++ ["];"; EmptyString] ++ file_table_open "gameEventTypes"
    ++ map table_entry (game_event_types d)
    ++ ["};"; EmptyString] ++ file_table_open "messageEventTypes"
    ++ map table_entry (message_event_types d)
    ++ ["};"; EmptyString] ++ file_table_open "trackerEventTypes"
    ++ map table_entry (tracker_event_types d)
    ++ ["};"; EmptyString; "// Important protocol type IDs"])%list.
  split.
  - rewrite (convert_well_shaped d out H). unfold console_lines, body_lines.
    rewrite <- !app_assoc. reflexivity.
  - rewrite (generate_well_shaped d H). unfold file_lines, body_lines.
    rewrite <- !app_assoc. reflexivity.
Qed.

Lemma header_scenario_and_constants_witness :
  well_shaped sample_descriptor = true
  /\ exists file_before : list string,
       generate_typescript_protocol_file sample_descriptor =
       Ok (unlines
             (file_before
              ++ [ "export const GAME_EVENTID_TYPEID = 0;";
                   "export const MESSAGE_EVENTID_TYPEID = 1;";
                   "export const TRACKER_EVENTID_TYPEID = 2;";
                   "export const SVARUINT32_TYPEID = 7;";
                   "export const REPLAY_USERID_TYPEID = 8;";
                   "export const REPLAY_HEADER_TYPEID = 18;";
                   "export const GAME_DETAILS_TYPEID = 40;";
                   "export const REPLAY_INITDATA_TYPEID = 73;" ]
              ++ helper_lines)).
Proof.
  split; [reflexivity|].
  destruct header_scenario_and_constants as (_ & _ & Hconst & _).
  destruct (Hconst sample_descriptor EmptyString eq_refl)
    as (_ & file_before & _ & Hf).
  exists file_before. exact Hf.
Defined.

(** ** Failure *)

Lemma catalog_scan_failure (good rest : list pyval) (bad : pyval) (e : pyexn) :
  forallb unpacks good = true ->
  unpack2 bad = Raise e ->
  scan catalog_line (enumerate (good ++ bad :: rest)) =
  (unlines (map catalog_entry (enumerate good)), Some e).
Proof.
  intros Hg Hb. unfold enumerate. rewrite enumerate_from_app. cbn [enumerate_from].
  apply scan_first_failure.
  - intros ie Hin. apply in_enumerate_from in Hin.
    rewrite forallb_forall in Hg. specialize (Hg _ Hin).
    unfold catalog_line, catalog_entry. rewrite (unpacks_pair _ Hg).
    now destruct (the_pair (snd ie)).
  - unfold catalog_line. cbn [snd]. now rewrite Hb.
Qed.

(** ** String literals *)

(** A literal written with the target language's escapes reads back as the
    text it was written from, whatever the text. *)
Lemma ts_string_chars_escaped (s rest : string) :
  ts_string_chars (ts_escaped s ++ String "034"%char rest) = Some (s, rest).
Proof.
  induction s as [|c s IH]; [reflexivity|].
  cbn [ts_escaped].
  destruct c as [[] [] [] [] [] [] [] []]; cbn; rewrite IH; reflexivity.
Qed.

Lemma ts_string_literal_round_trip (s rest : string) :
  ts_read_string (ts_string_literal s ++ rest) = Some (s, rest).
Proof.
  unfold ts_string_literal. rewrite !append_assoc.
  change (ts_string_chars (ts_escaped s ++ String "034"%char rest) = Some (s, rest)).
  apply ts_string_chars_escaped.
Qed.

(** Text pasted between double quotes, as the two routines paste a name,
    reads back as itself when it holds no double quote, backslash or line
    break. *)
Lemma pasted_name_round_trip (s rest : string) :
  quote_safe s = true ->
  ts_read_string (dq ++ s ++ dq ++ rest) = Some (s, rest).
Proof.
  intros H. cbn. induction s as [|c s IH]; [reflexivity|].
  cbn [quote_safe] in H. rewrite !andb_true_iff, !negb_true_iff in H.
  destruct H as ((((H1 & H2) & H3) & H4) & H5).
  cbn. rewrite H1, H2, H3, H4. cbn. now rewrite (IH H5).
Qed.

(** C1 -- Quote safety, at the name [a] double quote [b] and the data
    [['it\'s']].  Both documents hold one line for the entry, in which the
    name is pasted between double quotes unescaped and the apostrophe of the
    data has become a double quote.  Read by the string-literal rules, the
    first literal of the line denotes [a], not the name, and the data
    literal denotes [it], not [it's]; the escaped literal of the name reads
    back as the name. *)
Theorem quote_breaks_string_literal :
  let name := "a" ++ dq ++ "b" in
  let data_literal := dq ++ "it" ++ dq ++ "s" ++ dq in
  let tail := ", data: [" ++ data_literal ++ "] }, // 0" in
  generate_typescript_protocol_file quote_descriptor
  = Ok (unlines (file_lines quote_descriptor))
  /\ nth_error (file_lines quote_descriptor) 15
     = Some ("  { type: " ++ dq ++ name ++ dq ++ tail)
  /\ convert_typeinfos_to_typescript quote_descriptor EmptyString
     = (Ok tt, unlines (console_lines quote_descriptor))
  /\ nth_error (console_lines quote_descriptor) 9
     = Some ("  { type: " ++ dq ++ name ++ dq ++ tail)
  /\ ts_read_string (dq ++ name ++ dq ++ tail) = Some ("a", "b" ++ dq ++ tail)
  /\ ts_read_string (data_literal ++ "] }, // 0") = Some ("it", "s" ++ dq ++ "] }, // 0")
  /\ ts_read_string (ts_string_literal name ++ tail) = Some (name, tail).
Proof.
  cbv zeta. repeat split; reflexivity.
Qed.

(** ** Structural literals *)

Lemma replace_char_app (old new : ascii) (a b : string) :
  replace_char old new (a ++ b) = replace_char old new a ++ replace_char old new b.
Proof.
  induction a as [|c a IH]; simpl; [reflexivity | now rewrite IH].
Qed.

Lemma replace_char_join (old new : ascii) (sep : string) (parts : list string) :
  replace_char old new (join sep parts) =
  join (replace_char old new sep) (map (replace_char old new) parts).
Proof.
  induction parts as [|p parts IH]; [reflexivity|].
  destruct parts as [|q parts]; [reflexivity|].
  change (join sep (p :: q :: parts)) with (p ++ sep ++ join sep (q :: parts)).
  rewrite !replace_char_app, IH. reflexivity.
Qed.

Lemma replace_char_absent (old new : ascii) (s : string) :
  str_contains old s = false -> replace_char old new s = s.
Proof.
  induction s as [|c s IH]; simpl; [reflexivity|].
  intros H. apply orb_false_iff in H. destruct H as [Hc Hs].
  now rewrite Hc, IH.
Qed.

Lemma uint_no_squote (u : Decimal.uint) :
  str_contains squote (NilEmpty.string_of_uint u) = false.
Proof. induction u; simpl; auto. Qed.

Lemma str_int_no_squote (z : Z) : str_contains squote (str_int z) = false.
Proof.
  unfold str_int. destruct (Z.to_int z); simpl; apply uint_no_squote.
Qed.

Lemma replace_str_int (z : Z) : replace_char squote dquote (str_int z) = str_int z.
Proof. apply replace_char_absent, str_int_no_squote. Qed.

(** A printable character that is no quote and no backslash is spelled by
    itself in [repr], in a TypeScript literal and after the replacement. *)
Lemma plain_char (c : ascii) :
  py_isprintable c && negb (Ascii.eqb c squote) && negb (Ascii.eqb c dquote)
  && negb (Ascii.eqb c backslash) = true ->
  repr_char squote c = String c EmptyString
  /\ ts_escape c = String c EmptyString
  /\ Ascii.eqb c squote = false.
Proof.
  destruct c as [[] [] [] [] [] [] [] []]; cbn; intros H;
    try discriminate H; repeat split.
Qed.

Lemma plain_text_spelling (s : string) :
  plain_text s = true ->
  repr_chars squote s = s /\ ts_escaped s = s /\ str_contains squote s = false.
Proof.
  induction s as [|c s IH]; [now repeat split|].
  cbn [plain_text]. intros H. apply andb_true_iff in H. destruct H as [Hc Hs].
  destruct (plain_char c Hc) as (Hr & He & Hq).
  destruct (IH Hs) as (IHr & IHe & IHq).
  cbn [repr_chars ts_escaped str_contains].
  rewrite Hr, He, Hq, IHr, IHe, IHq. now repeat split.
Qed.

Lemma plain_text_literal (s : string) :
  plain_text s = true ->
  replace_char squote dquote (repr_str s) = ts_string_literal s.
Proof.
  intros H. destruct (plain_text_spelling s H) as (Hr & He & Hq).
  unfold repr_str, repr_quote, ts_string_literal. rewrite Hq. cbn [andb].
  rewrite Hr, He. cbn [replace_char]. rewrite replace_char_app.
  rewrite (replace_char_absent _ _ s Hq). reflexivity.
Qed.

Lemma plain_key_literal (k : pyval) :
  plain_key k = true ->
  ts_key k = Some (replace_char squote dquote (py_repr k)).
Proof.
  destruct k; cbn [plain_key ts_key py_repr]; try discriminate.
  - intros ->. now rewrite replace_str_int.
  - intros H. now rewrite plain_text_literal.
Qed.

(** On values built from lists, dicts, integers and plain text the two
    routines do write the literal the policy asks for. *)
Lemma plain_repr_is_ts_literal (v : pyval) :
  plain v = true ->
  ts_literal v = Some (replace_char squote dquote (py_repr v)).
Proof.
  induction v as [| b | z | s | l IH | l IH | l IH] using pyval_nested_ind;
    cbn [plain]; try discriminate; intros H.
  - cbn [ts_literal py_repr]. now rewrite replace_str_int.
  - cbn [ts_literal py_repr]. now rewrite plain_text_literal.
  - cbn [ts_literal py_repr].
    assert (E : sequence (map ts_literal l) =
                Some (map (fun x => replace_char squote dquote (py_repr x)) l)).
    { induction IH as [|x l Hx _ IHl]; [reflexivity|].
      cbn [forallb] in H. apply andb_true_iff in H. destruct H as [H1 H2].
      cbn [map sequence]. now rewrite (Hx H1), (IHl H2). }
    rewrite E, !replace_char_app, replace_char_join, map_map. reflexivity.
  - cbn [ts_literal py_repr].
    assert (E : sequence
                  (map (fun kv => ts_field (ts_key (fst kv)) (ts_literal (snd kv))) l) =
                Some (map (fun kv =>
                             replace_char squote dquote
                               (py_repr (fst kv) ++ ": " ++ py_repr (snd kv))) l)).
    { induction IH as [|kv l [_ Hv] _ IHl]; [reflexivity|].
      cbn [forallb] in H. rewrite !andb_true_iff in H. destruct H as [[Hk H1] H2].
      cbn [map sequence].
      rewrite (plain_key_literal _ Hk), (Hv H1), (IHl H2). cbn [ts_field].
      now rewrite !replace_char_app. }
    rewrite E, !replace_char_app, replace_char_join, map_map. reflexivity.
Qed.

(** C2 -- Structural literals, at the first catalog entry of the protocol
    module the script is fed with.  The data [[(0, 7)]] holds a tuple, an
    ordered sequence, whose array literal is [[0, 7]]; both documents spell
    it [(0, 7)], as Python does, so the data of the line reads [[(0, 7)]]
    and not [[[0, 7]]].  Likewise the text [it's], whose string literal
    keeps the apostrophe between two double quotes, is written with the
    apostrophe turned into a third double quote. *)
Theorem tuple_is_not_an_array_literal :
  let data := PList [PTuple [PInt 0; PInt 7]] in
  generate_typescript_protocol_file tuple_descriptor
  = Ok (unlines (file_lines tuple_descriptor))
  /\ nth_error (file_lines tuple_descriptor) 15
     = Some ("  { type: " ++ dq ++ "_int" ++ dq ++ ", data: [(0, 7)] }, // 0")
  /\ convert_typeinfos_to_typescript tuple_descriptor EmptyString
     = (Ok tt, unlines (console_lines tuple_descriptor))
  /\ nth_error (console_lines tuple_descriptor) 9
     = Some ("  { type: " ++ dq ++ "_int" ++ dq ++ ", data: [(0, 7)] }, // 0")
  /\ replace_char squote dquote (py_str data) = "[(0, 7)]"
  /\ ts_literal data = Some "[[0, 7]]"
  /\ replace_char squote dquote (py_str (PList [PStr "it's"]))
     = "[" ++ dq ++ "it" ++ dq ++ "s" ++ dq ++ "]"
  /\ ts_literal (PList [PStr "it's"]) = Some ("[" ++ dq ++ "it's" ++ dq ++ "]").
Proof.
  cbv zeta. repeat split; reflexivity.
Qed.

(** * Further properties *)

(** ** What the rendering reads of a descriptor *)

Lemma scan_same {X : Type} (line : X -> result string) (xs ys : list X) :
  map line xs = map line ys -> scan line xs = scan line ys.
Proof.
  revert ys; induction xs as [|x xs IH]; intros [|y ys] H; try discriminate H.
  - reflexivity.
  - cbn [map] in H. injection H as Hx Hr. cbn [scan]. rewrite Hx.
    now rewrite (IH ys Hr).
Qed.

Lemma catalog_lines_same (l1 l2 : list pyval) (n : nat) :
  map unpack2 l1 = map unpack2 l2 ->
  map catalog_line (enumerate_from n l1) = map catalog_line (enumerate_from n l2).
Proof.
  revert l2 n; induction l1 as [|x l1 IH]; intros [|y l2] n H; try discriminate H.
  - reflexivity.
  - cbn [map] in H. injection H as Hx Hr. cbn [enumerate_from map].
    rewrite (IH l2 (S n) Hr). unfold catalog_line at 1 3. cbn [fst snd].
    now rewrite Hx.
Qed.

Lemma table_lines_same (t1 t2 : list (pyval * pyval)) :
  unpacked_table t1 = unpacked_table t2 -> map table_line t1 = map table_line t2.
Proof.
  unfold unpacked_table.
  revert t2; induction t1 as [|x t1 IH]; intros [|y t2] H; try discriminate H.
  - reflexivity.
  - cbn [map] in H. injection H as Hk Hv Hr. cbn [map].
    rewrite (IH t2 Hr). unfold table_line at 1 3. now rewrite Hk, Hv.
Qed.

(** X4 -- The two routines read a descriptor only through what its entries
    unpack into.  Two descriptors with the same constants whose catalog
    entries unpack alike, and whose tables have the same keys with values
    that unpack alike, get the same result in both modes; so pairs written
    as two-item lists render as tuples do. *)
Theorem rendering_reads_unpacked_entries (d1 d2 : descriptor) :
  same_unpacked d1 d2 ->
  generate_typescript_protocol_file d1 = generate_typescript_protocol_file d2
  /\ forall out,
       convert_typeinfos_to_typescript d1 out =
       convert_typeinfos_to_typescript d2 out.
Proof.
  intros (Hc & Hg & Hm & Ht & Hk).
  assert (Ec : scan catalog_line (enumerate (typeinfos d1)) =
               scan catalog_line (enumerate (typeinfos d2)))
    by (apply scan_same, catalog_lines_same, Hc).
  assert (Eg := scan_same table_line _ _ (table_lines_same _ _ Hg)).
  assert (Em := scan_same table_line _ _ (table_lines_same _ _ Hm)).
  assert (Et := scan_same table_line _ _ (table_lines_same _ _ Ht)).
  assert (Ek : constant_lines d1 = constant_lines d2).
  { unfold constants_of in Hk. injection Hk as H1 H2 H3 H4 H5 H6 H7 H8.
    unfold constant_lines. now rewrite H1, H2, H3, H4, H5, H6, H7, H8. }
  split; [|intros out].
  - now rewrite !generate_closed_form, Ec, Eg, Em, Et, Ek.
  - now rewrite !convert_closed_form, Ec, Eg, Em, Et, Ek.
Qed.

Lemma rendering_reads_unpacked_entries_witness :
  same_unpacked sample_with_lists sample_descriptor
  /\ generate_typescript_protocol_file sample_with_lists =
     generate_typescript_protocol_file sample_descriptor.
Proof.
  assert (H : same_unpacked sample_with_lists sample_descriptor)
    by (repeat split; reflexivity).
  split; [exact H|].
  exact (proj1 (rendering_reads_unpacked_entries _ _ H)).
Defined.

(** ** Entry lines read back *)

Lemma uint_chars (c : ascii) (u : Decimal.uint) :
  numeral_char c = false -> str_contains c (NilEmpty.string_of_uint u) = false.
Proof.
  unfold numeral_char. cbn [str_contains]. rewrite !orb_false_iff.
  intros (Hm & H0 & H1 & H2 & H3 & H4 & H5 & H6 & H7 & H8 & H9 & _).
  induction u; cbn [NilEmpty.string_of_uint str_contains]; rewrite ?IHu;
    try reflexivity; rewrite orb_false_r; assumption.
Qed.

Lemma str_int_chars (c : ascii) (z : Z) :
  numeral_char c = false -> str_contains c (str_int z) = false.
Proof.
  intros H. unfold str_int.
  destruct (Z.to_int z) as [u|u]; cbn [NilEmpty.string_of_int str_contains].
  - now apply uint_chars.
  - rewrite (uint_chars c u H), orb_false_r.
    unfold numeral_char in H. cbn [str_contains] in H.
    now apply orb_false_iff in H.
Qed.

Lemma take_until_absent (c : ascii) (a rest : string) :
  str_contains c a = false -> take_until c (a ++ String c rest) = Some (a, rest).
Proof.
  induction a as [|x a IH]; cbn [str_contains append take_until].
  - now rewrite Ascii.eqb_refl.
  - intros H. apply orb_false_iff in H. destruct H as [Hx Ha].
    now rewrite Hx, (IH Ha).
Qed.

Lemma read_int_str_int (z : Z) : read_int (str_int z) = Some z.
Proof.
  unfold read_int, str_int. rewrite NilEmpty.isi, DecimalZ.of_to.
  now rewrite String.eqb_refl.
Qed.

Lemma event_line_decodes (event_id type_id : Z) (name : string) :
  quote_safe name = true ->
  read_event_line (event_line (PInt event_id) (PInt type_id) (PStr name))
  = Some (event_id, type_id, name).
Proof.
  intros H. unfold event_line, py_format, py_str, py_repr, read_event_line, dq.
  cbn [append strip_prefix Ascii.eqb Bool.eqb].
  rewrite take_until_absent by (now apply str_int_chars).
  cbn [append strip_prefix Ascii.eqb Bool.eqb].
  rewrite take_until_absent by (now apply str_int_chars).
  cbn [append strip_prefix Ascii.eqb Bool.eqb].
  change (String "034"%char (name ++ String "034"%char " },"))
    with (dq ++ name ++ dq ++ " },").
  rewrite (pasted_name_round_trip name " }," H).
  now rewrite !read_int_str_int.
Qed.

(** X5 -- A table item with an integer key, an integer type id and a name
    free of double quotes, backslashes and line breaks is written, in both
    routines, as a line from which the three read back: the key and the
    [typeId] as the integers they were, the [name] literal as the name. *)
Theorem event_line_reads_back (event_id type_id : Z) (name : string) :
  quote_safe name = true ->
  event_line (PInt event_id) (PInt type_id) (PStr name)
  = "  " ++ str_int event_id ++ ": { typeId: " ++ str_int type_id
      ++ ", name: " ++ dq ++ name ++ dq ++ " },"
  /\ read_event_line (event_line (PInt event_id) (PInt type_id) (PStr name))
     = Some (event_id, type_id, name).
Proof.
  intros H. split; [reflexivity | now apply event_line_decodes].
Qed.

Lemma event_line_reads_back_witness :
  quote_safe "NNet.Game.SUserOptionsEvent" = true
  /\ read_event_line
       ("  7: { typeId: 81, name: " ++ dq ++ "NNet.Game.SUserOptionsEvent" ++ dq ++ " },")
     = Some (7%Z, 81%Z, "NNet.Game.SUserOptionsEvent").
Proof.
  split; [reflexivity|].
  exact (proj2 (event_line_reads_back 7 81 "NNet.Game.SUserOptionsEvent" eq_refl)).
Defined.

(** X6 -- Two different table items with integer keys, integer type ids
    and names free of double quotes, backslashes and line breaks are never
    written as the same line. *)
Theorem event_line_injective (e1 t1 e2 t2 : Z) (n1 n2 : string) :
  quote_safe n1 = true ->
  quote_safe n2 = true ->
  (e1, t1, n1) <> (e2, t2, n2) ->
  event_line (PInt e1) (PInt t1) (PStr n1) <> event_line (PInt e2) (PInt t2) (PStr n2).
Proof.
  intros H1 H2 Hne E. apply Hne.
  assert (D : Some (e1, t1, n1) = Some (e2, t2, n2)).
  { rewrite <- (event_line_decodes e1 t1 n1 H1), <- (event_line_decodes e2 t2 n2 H2).
    now rewrite E. }
  now injection D as -> -> ->.
Qed.

Lemma event_line_injective_witness :
  quote_safe "NNet.Game.SChatMessage" = true
  /\ (0%Z, 155%Z, "NNet.Game.SChatMessage") <> (1%Z, 155%Z, "NNet.Game.SChatMessage")
  /\ event_line (PInt 0) (PInt 155) (PStr "NNet.Game.SChatMessage")
     <> event_line (PInt 1) (PInt 155) (PStr "NNet.Game.SChatMessage").
Proof.
  assert (H : (0%Z, 155%Z, "NNet.Game.SChatMessage")
              <> (1%Z, 155%Z, "NNet.Game.SChatMessage")) by discriminate.
  split; [reflexivity|]. split; [exact H|].
  exact (event_line_injective 0 155 1 155 "NNet.Game.SChatMessage"
           "NNet.Game.SChatMessage" eq_refl eq_refl H).
Defined.

(** ** Entries that meet the literal policy *)

Lemma quote_safe_escaped (s : string) : quote_safe s = true -> ts_escaped s = s.
Proof.
  induction s as [|c s IH]; [reflexivity|].
  cbn [quote_safe ts_escaped]. rewrite !andb_true_iff, !negb_true_iff.
  intros ((((H1 & H2) & H3) & H4) & H5).
  unfold ts_escape. rewrite H1, H2, H3, H4. cbn. now rewrite (IH H5).
Qed.

Lemma body_lines_catalog_nth (head : list string) (table_open : string -> list string)
    (d : descriptor) (i : nat) (line : string) :
  nth_error (map catalog_entry (enumerate (typeinfos d))) i = Some line ->
  nth_error (body_lines head table_open d) (List.length head + i) = Some line.
Proof.
  intros H. unfold body_lines.
  rewrite nth_error_app2 by lia.
  replace (List.length head + i - List.length head)%nat with i by lia.
  rewrite nth_error_app1; [exact H|].
  apply nth_error_Some. now rewrite H.
Qed.

(** X7 -- A catalog entry whose name is text free of double quotes,
    backslashes and line breaks and whose data is built from lists, dicts,
    integers and plain text (and is not itself a string) is written, in both
    documents, exactly as the literal policy has it: the name as its string
    literal, the data as its array or object literal, and the index after
    them. *)
Theorem plain_entry_meets_literal_policy (d : descriptor) (i : nat)
    (e : pyval) (name : string) (data : pyval) :
  well_shaped d = true ->
  nth_error (typeinfos d) i = Some e ->
  unpack2 e = Ok (PStr name, data) ->
  quote_safe name = true ->
  plain data = true ->
  (forall s, data <> PStr s) ->
  exists literal : string,
    ts_literal data = Some literal
    /\ (forall rest, ts_read_string (ts_string_literal name ++ rest) = Some (name, rest))
    /\ let line :=
         "  { type: " ++ ts_string_literal name ++ ", data: " ++ literal
           ++ " }, // " ++ str_nat i in
       (exists above below : list string,
          List.length above = (9 + i)%nat
          /\ forall out,
               convert_typeinfos_to_typescript d out =
               (Ok tt, out ++ unlines (above ++ line :: below)))
       /\ (exists above below : list string,
             List.length above = (15 + i)%nat
             /\ generate_typescript_protocol_file d =
                Ok (unlines (above ++ line :: below))).
Proof.
  intros Hd Hn Hu Hq Hp Hs.
  exists (replace_char squote dquote (py_repr data)).
  split; [now apply plain_repr_is_ts_literal|].
  split; [intros rest; apply ts_string_literal_round_trip|].
  cbv zeta.
  assert (Hline : nth_error (map catalog_entry (enumerate (typeinfos d))) i =
                  Some ("  { type: " ++ ts_string_literal name ++ ", data: "
                        ++ replace_char squote dquote (py_repr data)
                        ++ " }, // " ++ str_nat i)).
  { rewrite (catalog_entry_nth _ _ _ _ _ Hn Hu). f_equal.
    unfold typeinfo_line, py_format, ts_string_literal. cbn [py_str].
    rewrite (quote_safe_escaped name Hq), !append_assoc.
    destruct data; try reflexivity. now contradiction (Hs s). }
  split.
  - apply (body_lines_catalog_nth console_head console_table_open) in Hline.
    apply nth_error_split in Hline. destruct Hline as (above & below & Hb & Hl).
    exists above, below. split; [exact Hl|]. intros out.
    rewrite (convert_well_shaped d out Hd). unfold console_lines. now rewrite Hb.
  - apply (body_lines_catalog_nth file_head file_table_open) in Hline.
    apply nth_error_split in Hline. destruct Hline as (above & below & Hb & Hl).
    exists above, (below ++ helper_lines)%list. split; [exact Hl|].
    rewrite (generate_well_shaped d Hd). unfold file_lines.
    now rewrite Hb, <- app_assoc.
Qed.

Lemma plain_entry_meets_literal_policy_witness :
  well_shaped
    (with_typeinfos
       [PTuple [PStr "_struct";
                PList [PList [PList [PStr "m_flags"; PInt 13; PInt 0]]]]]) = true
  /\ quote_safe "_struct" = true
  /\ plain (PList [PList [PList [PStr "m_flags"; PInt 13; PInt 0]]]) = true
  /\ exists literal : string,
       ts_literal (PList [PList [PList [PStr "m_flags"; PInt 13; PInt 0]]])
       = Some literal.
Proof.
  split; [reflexivity|]. split; [reflexivity|]. split; [reflexivity|].
  destruct (plain_entry_meets_literal_policy
              (with_typeinfos
                 [PTuple [PStr "_struct";
                          PList [PList [PList [PStr "m_flags"; PInt 13; PInt 0]]]]])
              0 _ "_struct" (PList [PList [PList [PStr "m_flags"; PInt 13; PInt 0]]])
              eq_refl eq_refl eq_refl eq_refl eq_refl)
    as (literal & Hl & _).
  - intros s. discriminate.
  - exists literal. exact Hl.
Defined.

(** ** Quotes after the rewriting *)

Lemma str_contains_app (c : ascii) (a b : string) :
  str_contains c (a ++ b) = str_contains c a || str_contains c b.
Proof.
  induction a as [|x a IH]; cbn [append str_contains]; [reflexivity|].
  now rewrite IH, orb_assoc.
Qed.

Lemma repr_chars_app (q : ascii) (a b : string) :
  repr_chars q (a ++ b) = repr_chars q a ++ repr_chars q b.
Proof.
  induction a as [|x a IH]; cbn [append repr_chars]; [reflexivity|].
  now rewrite IH, append_assoc.
Qed.

Lemma plain_char_dquoted (c : ascii) :
  py_isprintable c && negb (Ascii.eqb c squote) && negb (Ascii.eqb c dquote)
  && negb (Ascii.eqb c backslash) = true ->
  repr_char dquote c = String c EmptyString /\ Ascii.eqb c dquote = false.
Proof.
  destruct c as [[] [] [] [] [] [] [] []]; cbn; intros H;
    try discriminate H; repeat split.
Qed.

Lemma plain_text_dquoted (s : string) :
  plain_text s = true ->
  repr_chars dquote s = s /\ str_contains dquote s = false.
Proof.
  induction s as [|c s IH]; [now split|].
  cbn [plain_text]. intros H. apply andb_true_iff in H. destruct H as [Hc Hs].
  destruct (plain_char_dquoted c Hc) as (Hr & Hq). destruct (IH Hs) as (IHr & IHq).
  cbn [repr_chars str_contains]. rewrite Hr, Hq, IHr, IHq. now split.
Qed.

Lemma append_inv_head (a b c : string) : a ++ b = a ++ c -> b = c.
Proof.
  induction a as [|x a IH]; cbn [append]; [trivial|].
  intros H. injection H as H. now apply IH.
Qed.

Lemma repr_with_apostrophe (s t : string) :
  plain_text s = true -> plain_text t = true ->
  replace_char squote dquote (repr_str (s ++ "'" ++ t)) = dq ++ s ++ dq ++ t ++ dq.
Proof.
  intros Hs Ht.
  destruct (plain_text_spelling s Hs) as (_ & _ & Hs1).
  destruct (plain_text_spelling t Ht) as (_ & _ & Ht1).
  destruct (plain_text_dquoted s Hs) as (Hs2 & Hs3).
  destruct (plain_text_dquoted t Ht) as (Ht2 & Ht3).
  unfold repr_str, repr_quote.
  rewrite !str_contains_app, Hs3, Ht3, Hs1, Ht1. cbn [str_contains orb andb negb].
  replace (Ascii.eqb "'" squote) with true by reflexivity.
  replace (Ascii.eqb "'" dquote) with false by reflexivity.
  cbn [orb andb negb].
  rewrite !repr_chars_app, Hs2, Ht2. cbn [repr_chars].
  replace (repr_char dquote "'") with "'" by reflexivity.
  cbn [replace_char]. rewrite !replace_char_app.
  rewrite (replace_char_absent _ _ s Hs1), (replace_char_absent _ _ t Ht1).
  rewrite ?append_assoc. reflexivity.
Qed.

Lemma repr_with_double_quote (s t : string) :
  plain_text s = true -> plain_text t = true ->
  replace_char squote dquote (repr_str (s ++ dq ++ t)) = dq ++ s ++ dq ++ t ++ dq.
Proof.
  intros Hs Ht.
  destruct (plain_text_spelling s Hs) as (Hs2 & _ & Hs1).
  destruct (plain_text_spelling t Ht) as (Ht2 & _ & Ht1).
  unfold repr_str, repr_quote.
  rewrite !str_contains_app, Hs1, Ht1. cbn [str_contains orb andb negb dq].
  replace (Ascii.eqb "034" squote) with false by reflexivity.
  cbn [orb andb negb].
  rewrite !repr_chars_app, Hs2, Ht2. cbn [repr_chars].
  replace (repr_char squote "034") with dq by reflexivity.
  cbn [replace_char]. rewrite !replace_char_app.
  rewrite (replace_char_absent _ _ s Hs1), (replace_char_absent _ _ t Ht1).
  rewrite ?append_assoc. reflexivity.
Qed.

(** X8 -- The rewriting of apostrophes loses which quote a text held.  For
    plain texts [s] and [t], data holding [s't] and data holding [s] double
    quote [t] are different values, and both routines write the same line
    for them, whatever the name and the index. *)
Theorem quote_kinds_collide (i : nat) (type_name : pyval) (s t : string) :
  plain_text s = true ->
  plain_text t = true ->
  PList [PStr (s ++ "'" ++ t)] <> PList [PStr (s ++ dq ++ t)]
  /\ typeinfo_line i type_name (PList [PStr (s ++ "'" ++ t)])
     = typeinfo_line i type_name (PList [PStr (s ++ dq ++ t)]).
Proof.
  intros Hs Ht. split.
  - intros E. injection E as E. apply append_inv_head in E. discriminate E.
  - unfold typeinfo_line. do 5 f_equal.
    cbn [py_str py_repr map join]. rewrite !replace_char_app.
    now rewrite (repr_with_apostrophe s t Hs Ht), (repr_with_double_quote s t Hs Ht).
Qed.

Lemma quote_kinds_collide_witness :
  plain_text "rock " = true
  /\ plain_text " roll" = true
  /\ typeinfo_line 0 (PStr "_blob") (PList [PStr ("rock " ++ "'" ++ " roll")])
     = typeinfo_line 0 (PStr "_blob") (PList [PStr ("rock " ++ dq ++ " roll")]).
Proof.
  split; [reflexivity|]. split; [reflexivity|].
  exact (proj2 (quote_kinds_collide 0 (PStr "_blob") "rock " " roll" eq_refl eq_refl)).
Defined.

(** ** Physical lines *)

Lemma one_line_app (a b : string) : one_line (a ++ b) = one_line a && one_line b.
Proof. unfold one_line. now rewrite str_contains_app, negb_orb. Qed.

Lemma split_lines_line (l rest : string) :
  one_line l = true -> split_lines (l ++ nl ++ rest) = l :: split_lines rest.
Proof.
  unfold one_line. induction l as [|c l IH]; [reflexivity|].
  cbn [str_contains append]. rewrite negb_orb, andb_true_iff, negb_true_iff.
  intros [Hc Hl]. cbn [split_lines]. rewrite Hc. now rewrite (IH Hl).
Qed.

Lemma split_unlines (ls : list string) :
  forallb one_line ls = true ->
  split_lines (unlines ls) = (ls ++ [EmptyString])%list.
Proof.
  induction ls as [|l ls IH]; [reflexivity|].
  cbn [forallb unlines app]. intros H. apply andb_true_iff in H.
  destruct H as [Hl Hls]. now rewrite (split_lines_line l _ Hl), (IH Hls).
Qed.

Lemma repr_chars_one_line (q : ascii) (s : string) :
  q = squote \/ q = dquote -> one_line (repr_chars q s) = true.
Proof.
  intros Hq. induction s as [|c s IH]; [reflexivity|].
  cbn [repr_chars]. rewrite one_line_app, IH, andb_true_r.
  destruct Hq as [-> | ->]; destruct c as [[] [] [] [] [] [] [] []]; reflexivity.
Qed.

Lemma repr_str_one_line (s : string) : one_line (repr_str s) = true.
Proof.
  unfold repr_str.
  assert (Hq : repr_quote s = squote \/ repr_quote s = dquote).
  { unfold repr_quote. destruct (_ && _); [now right | now left]. }
  change (String (repr_quote s) (repr_chars (repr_quote s) s
                                   ++ String (repr_quote s) EmptyString))
    with (String (repr_quote s) EmptyString
            ++ repr_chars (repr_quote s) s ++ String (repr_quote s) EmptyString).
  rewrite !one_line_app, (repr_chars_one_line _ s Hq).
  destruct Hq as [-> | ->]; reflexivity.
Qed.

Lemma str_int_one_line (z : Z) : one_line (str_int z) = true.
Proof. unfold one_line. now rewrite str_int_chars. Qed.

Lemma join_one_line (sep : string) (parts : list string) :
  one_line sep = true ->
  Forall (fun p => one_line p = true) parts ->
  one_line (join sep parts) = true.
Proof.
  intros Hsep H. induction H as [|p parts Hp _ IH]; [reflexivity|].
  destruct parts as [|q parts]; [exact Hp|].
  change (join sep (p :: q :: parts)) with (p ++ sep ++ join sep (q :: parts)).
  now rewrite !one_line_app, Hp, Hsep, IH.
Qed.

(** [repr] never writes a line break: those inside a value are escaped. *)
Lemma py_repr_one_line (v : pyval) : one_line (py_repr v) = true.
Proof.
  induction v as [| b | z | s | l IH | l IH | l IH] using pyval_nested_ind;
    cbn [py_repr].
  - reflexivity.
  - now destruct b.
  - apply str_int_one_line.
  - apply repr_str_one_line.
  - rewrite !one_line_app, join_one_line; [reflexivity | reflexivity |].
    now apply Forall_map.
  - assert (Hj : one_line (join ", " (map py_repr l)) = true)
      by (apply join_one_line; [reflexivity | now apply Forall_map]).
    unfold repr_tuple. destruct (map py_repr l) as [|p [|q parts]] eqn:E.
    + reflexivity.
    + cbn [join] in Hj. now rewrite !one_line_app, Hj.
    + now rewrite !one_line_app, Hj.
  - rewrite !one_line_app, join_one_line; [reflexivity | reflexivity |].
    apply Forall_map. eapply Forall_impl; [|exact IH].
    intros kv [Hk Hv]. cbv beta. now rewrite !one_line_app, Hk, Hv.
Qed.

Lemma py_str_one_line (v : pyval) : one_line (py_str v) = one_line_value v.
Proof.
  destruct v; cbn [py_str one_line_value]; try apply py_repr_one_line.
  reflexivity.
Qed.

Lemma replace_one_line (s : string) :
  one_line (replace_char squote dquote s) = one_line s.
Proof.
  unfold one_line. f_equal. induction s as [|c s IH]; [reflexivity|].
  cbn [replace_char str_contains]. rewrite IH. f_equal.
  destruct (Ascii.eqb_spec c squote) as [-> | _]; reflexivity.
Qed.

Lemma typeinfo_line_one_line (i : nat) (type_name type_data : pyval) :
  one_line_value type_name && one_line_value type_data = true ->
  one_line (typeinfo_line i type_name type_data) = true.
Proof.
  intros H. apply andb_true_iff in H. destruct H as [Hn Hd].
  unfold typeinfo_line, py_format, str_nat.
  now rewrite !one_line_app, replace_one_line, !py_str_one_line, Hn, Hd,
    str_int_one_line.
Qed.

Lemma event_line_one_line (event_id type_id name : pyval) :
  one_line_value event_id && one_line_value type_id && one_line_value name = true ->
  one_line (event_line event_id type_id name) = true.
Proof.
  rewrite !andb_true_iff. intros [[He Ht] Hn].
  unfold event_line, py_format.
  now rewrite !one_line_app, !py_str_one_line, He, Ht, Hn.
Qed.

Lemma forallb_map_true {A B : Type} (p : B -> bool) (f : A -> B) (l : list A) :
  (forall x, In x l -> p (f x) = true) -> forallb p (map f l) = true.
Proof.
  intros H. apply forallb_forall. intros y Hy. apply in_map_iff in Hy.
  destruct Hy as (x & <- & Hx). now apply H.
Qed.

Lemma constant_lines_one_line (d : descriptor) :
  forallb one_line (constant_lines d) = true.
Proof.
  unfold constant_lines. cbn [forallb].
  now rewrite !one_line_app, !str_int_one_line.
Qed.

Lemma body_lines_one_line (head : list string) (table_open : string -> list string)
    (d : descriptor) :
  forallb one_line head = true ->
  (forall n, one_line n = true -> forallb one_line (table_open n) = true) ->
  one_line_entries d = true ->
  forallb one_line (body_lines head table_open d) = true.
Proof.
  intros Hh Ho H. unfold one_line_entries in H. rewrite !andb_true_iff in H.
  destruct H as [[[Hc Hg] Hm] Ht]. rewrite forallb_forall in Hc, Hg, Hm, Ht.
  assert (Htable : forall t,
             (forall item, In item t -> one_line_item item = true) ->
             forallb one_line (map table_entry t) = true).
  { intros t Hin. apply forallb_map_true. intros item Hitem.
    apply event_line_one_line. exact (Hin item Hitem). }
  unfold body_lines.
  rewrite !forallb_app, Hh, !Ho, (Htable _ Hg), (Htable _ Hm), (Htable _ Ht),
    constant_lines_one_line by reflexivity.
  rewrite forallb_map_true; [reflexivity|].
  intros ie Hie. apply typeinfo_line_one_line, Hc.
  exact (in_enumerate_from _ _ _ Hie).
Qed.

(** X9 -- When no name, key or top-level string of a descriptor holds a
    line break, each [print] call and each [+=] chunk is one physical line:
    split at its line breaks, the console text is exactly the lines of the
    console document and the file text exactly those of the file document,
    each followed by the empty piece after the last line break.  Line breaks
    inside the data never count, as [repr] escapes them. *)
Theorem documents_split_into_their_lines (d : descriptor) :
  well_shaped d = true ->
  one_line_entries d = true ->
  split_lines (snd (convert_typeinfos_to_typescript d EmptyString))
  = (console_lines d ++ [EmptyString])%list
  /\ exists text,
       generate_typescript_protocol_file d = Ok text
       /\ split_lines text = (file_lines d ++ [EmptyString])%list.
Proof.
  intros Hd H1. split.
  - rewrite (convert_well_shaped d EmptyString Hd). cbn [snd append].
    apply split_unlines. unfold console_lines.
    apply body_lines_one_line; [reflexivity | | exact H1].
    intros n Hn. unfold console_table_open. cbn [forallb].
    now rewrite !one_line_app, Hn.
  - exists (unlines (file_lines d)). split; [now apply generate_well_shaped|].
    apply split_unlines. unfold file_lines. rewrite forallb_app.
    rewrite body_lines_one_line; [reflexivity | reflexivity | | exact H1].
    intros n Hn. unfold file_table_open. cbn [forallb].
    now rewrite !one_line_app, Hn.
Qed.

Lemma documents_split_into_their_lines_witness :
  well_shaped sample_descriptor = true
  /\ one_line_entries sample_descriptor = true
  /\ List.length
       (split_lines (snd (convert_typeinfos_to_typescript sample_descriptor EmptyString)))
     = 37%nat.
Proof.
  split; [reflexivity|]. split; [reflexivity|].
  rewrite (proj1 (documents_split_into_their_lines sample_descriptor eq_refl eq_refl)).
  reflexivity.
Defined.

(** * The routines under the interpreter *)

(** ** What [str] accepts *)

Lemma all_ok_map {A : Type} (f : A -> result string) (g : A -> string) (l : list A) :
  (forall x, In x l -> f x = Ok (g x)) -> all_ok (map f l) = Ok (map g l).
Proof.
  induction l as [|x l IH]; intros H; [reflexivity|].
  cbn [map all_ok]. rewrite (H x (or_introl eq_refl)). cbn [bind].
  rewrite IH by (intros y Hy; apply H; now right). reflexivity.
Qed.

Lemma is_ok_all_ok {A : Type} (f : A -> result string) (l : list A) :
  is_ok (all_ok (map f l)) = forallb (fun x => is_ok (f x)) l.
Proof.
  induction l as [|x l IH]; [reflexivity|].
  cbn [map all_ok forallb]. destruct (f x) as [a|e]; [|reflexivity].
  cbn [bind is_ok andb]. rewrite <- IH. now destruct (all_ok (map f l)).
Qed.

Lemma is_ok_bind_ok {A B : Type} (r : result A) (k : A -> B) :
  is_ok (bind r (fun a => Ok (k a))) = is_ok r.
Proof. now destruct r. Qed.

Lemma str_int_under_fits (py : interpreter) (z : Z) :
  int_fits py z = true -> str_int_under py z = Ok (str_int z).
Proof. unfold str_int_under. now intros ->. Qed.

Lemma is_ok_str_int_under (py : interpreter) (z : Z) :
  is_ok (str_int_under py z) = int_fits py z.
Proof. unfold str_int_under. now destruct (int_fits py z). Qed.

(** [repr] of a value it accepts is the text of [py_repr]. *)
Lemma repr_under_fits (py : interpreter) (depth : nat) (v : pyval) :
  fits py depth v = true -> repr_under py depth v = Ok (py_repr v).
Proof.
  revert v. induction depth as [|depth IH]; intros v; [discriminate|].
  destruct v as [| [] | z | s | l | l | l]; cbn [fits repr_under py_repr];
    try reflexivity.
  - apply str_int_under_fits.
  - intros H. rewrite forallb_forall in H.
    now rewrite (all_ok_map _ py_repr l (fun x Hx => IH x (H x Hx))).
  - intros H. rewrite forallb_forall in H.
    now rewrite (all_ok_map _ py_repr l (fun x Hx => IH x (H x Hx))).
  - intros H. rewrite forallb_forall in H.
    rewrite (all_ok_map _ (fun kv => py_repr (fst kv) ++ ": " ++ py_repr (snd kv)) l);
      [reflexivity|].
    intros kv Hkv. specialize (H kv Hkv). apply andb_true_iff in H.
    destruct H as [Hk Hv]. now rewrite (IH _ Hk), (IH _ Hv).
Qed.

(** And [repr] returns for exactly those values. *)
Lemma is_ok_repr_under (py : interpreter) (depth : nat) (v : pyval) :
  is_ok (repr_under py depth v) = fits py depth v.
Proof.
  revert v. induction depth as [|depth IH]; intros v; [reflexivity|].
  destruct v as [| [] | z | s | l | l | l]; cbn [fits repr_under];
    try reflexivity.
  - apply is_ok_str_int_under.
  - rewrite is_ok_bind_ok, is_ok_all_ok. now apply forallb_eq.
  - rewrite is_ok_bind_ok, is_ok_all_ok. now apply forallb_eq.
  - rewrite is_ok_bind_ok, is_ok_all_ok. apply forallb_eq. intros kv.
    rewrite <- !IH. destruct (repr_under py depth (fst kv)); [|reflexivity].
    cbn [bind is_ok andb]. now destruct (repr_under py depth (snd kv)).
Qed.

Lemma str_under_fits (py : interpreter) (v : pyval) :
  str_fits py v = true -> str_under py v = Ok (py_str v).
Proof.
  destruct v; cbn [str_fits str_under py_str]; try apply repr_under_fits.
  reflexivity.
Qed.

Lemma is_ok_str_under (py : interpreter) (v : pyval) :
  is_ok (str_under py v) = str_fits py v.
Proof.
  destruct v; cbn [str_fits str_under]; try apply is_ok_repr_under.
  reflexivity.
Qed.

Lemma typeinfo_line_under_fits (py : interpreter) (i : nat) (n dt : pyval) :
  str_fits py dt && str_fits py n && int_fits py (Z.of_nat i) = true ->
  typeinfo_line_under py i n dt = Ok (typeinfo_line i n dt).
Proof.
  rewrite !andb_true_iff. intros [[Hd Hn] Hi]. unfold typeinfo_line_under.
  now rewrite (str_under_fits py dt Hd), (str_under_fits py n Hn),
    (str_int_under_fits py _ Hi).
Qed.

Lemma is_ok_typeinfo_line_under (py : interpreter) (i : nat) (n dt : pyval) :
  is_ok (typeinfo_line_under py i n dt)
  = str_fits py dt && str_fits py n && int_fits py (Z.of_nat i).
Proof.
  unfold typeinfo_line_under.
  rewrite <- !is_ok_str_under, <- is_ok_str_int_under.
  destruct (str_under py dt); [|reflexivity]. cbn [bind is_ok andb].
  destruct (str_under py n); [|reflexivity]. cbn [bind is_ok andb].
  now destruct (str_int_under py (Z.of_nat i)).
Qed.

Lemma event_line_under_fits (py : interpreter) (k t n : pyval) :
  str_fits py k && str_fits py t && str_fits py n = true ->
  event_line_under py k t n = Ok (event_line k t n).
Proof.
  rewrite !andb_true_iff. intros [[Hk Ht] Hn]. unfold event_line_under.
  now rewrite (str_under_fits py k Hk), (str_under_fits py t Ht),
    (str_under_fits py n Hn).
Qed.

Lemma is_ok_event_line_under (py : interpreter) (k t n : pyval) :
  is_ok (event_line_under py k t n) = str_fits py k && str_fits py t && str_fits py n.
Proof.
  unfold event_line_under. rewrite <- !is_ok_str_under.
  destruct (str_under py k); [|reflexivity]. cbn [bind is_ok andb].
  destruct (str_under py t); [|reflexivity]. cbn [bind is_ok andb].
  now destruct (str_under py n).
Qed.

(** Where the values fit, a catalog entry gives under the interpreter what
    it gives without limits, line or exception. *)
Lemma catalog_line_under_fits (py : interpreter) (ie : nat * pyval) :
  typeinfo_fits py ie = true -> catalog_line_under py ie = catalog_line ie.
Proof.
  unfold typeinfo_fits, catalog_line_under, catalog_line, the_pair.
  destruct (unpack2 (snd ie)) as [[n dt]|e]; [|reflexivity].
  cbn [bind fst snd]. apply typeinfo_line_under_fits.
Qed.

Lemma is_ok_catalog_line_under (py : interpreter) (ie : nat * pyval) :
  is_ok (catalog_line_under py ie) = typeinfo_renders py ie.
Proof.
  unfold typeinfo_renders, typeinfo_fits, catalog_line_under, unpacks, the_pair.
  destruct (unpack2 (snd ie)) as [[n dt]|e]; [|reflexivity].
  cbn [bind fst snd andb]. apply is_ok_typeinfo_line_under.
Qed.

Lemma table_line_under_fits (py : interpreter) (item : pyval * pyval) :
  item_fits py item = true -> table_line_under py item = table_line item.
Proof.
  unfold item_fits, table_line_under, table_line, the_pair.
  destruct (unpack2 (snd item)) as [[t n]|e]; [|reflexivity].
  cbn [bind fst snd]. apply event_line_under_fits.
Qed.

Lemma is_ok_table_line_under (py : interpreter) (item : pyval * pyval) :
  is_ok (table_line_under py item) = unpacks (snd item) && item_fits py item.
Proof.
  unfold item_fits, table_line_under, unpacks, the_pair.
  destruct (unpack2 (snd item)) as [[t n]|e]; [|reflexivity].
  cbn [bind fst snd andb]. apply is_ok_event_line_under.
Qed.

(** ** Closed forms under the interpreter *)

Lemma io_lift_then {A B : Type} (r : result A) (k : A -> io B) (out : string) :
  io_bind (io_lift r) k out =
  match r with
  | Ok a => k a out
  | Raise e => (Raise e, out)
  end.
Proof. unfold io_bind, io_lift. now destruct r. Qed.

Lemma catalog_body_under (py : interpreter) (ie : nat * pyval) (o : string) :
  io_bind (io_lift (unpack2 (snd ie)))
    (fun x => match x with
              | (type_name, type_data) =>
                  io_bind (io_lift (typeinfo_line_under py (fst ie) type_name type_data))
                    (fun line => print_ line)
              end) o =
  match catalog_line_under py ie with
  | Ok s => (Ok tt, o ++ s ++ nl)
  | Raise e => (Raise e, o)
  end.
Proof.
  unfold catalog_line_under. rewrite io_lift_then.
  destruct (unpack2 (snd ie)) as [[a b]|e]; [|reflexivity].
  cbn [bind]. rewrite io_lift_then. now destruct (typeinfo_line_under py (fst ie) a b).
Qed.

Lemma table_body_under (py : interpreter) (item : pyval * pyval) (o : string) :
  io_bind (io_lift (unpack2 (snd item)))
    (fun x => match x with
              | (type_id, name) =>
                  io_bind (io_lift (event_line_under py (fst item) type_id name))
                    (fun line => print_ line)
              end) o =
  match table_line_under py item with
  | Ok s => (Ok tt, o ++ s ++ nl)
  | Raise e => (Raise e, o)
  end.
Proof.
  unfold table_line_under. rewrite io_lift_then.
  destruct (unpack2 (snd item)) as [[a b]|e]; [|reflexivity].
  cbn [bind]. rewrite io_lift_then. now destruct (event_line_under py (fst item) a b).
Qed.

Lemma catalog_chunk_under (py : interpreter) (ie : nat * pyval) :
  bind (unpack2 (snd ie))
    (fun x => match x with
              | (type_name, type_data) =>
                  bind (typeinfo_line_under py (fst ie) type_name type_data)
                    (fun line => Ok (line ++ nl))
              end) =
  match catalog_line_under py ie with Ok s => Ok (s ++ nl) | Raise e => Raise e end.
Proof.
  unfold catalog_line_under, bind. now destruct (unpack2 (snd ie)) as [[a b]|e].
Qed.

Lemma table_chunk_under (py : interpreter) (item : pyval * pyval) :
  bind (unpack2 (snd item))
    (fun x => match x with
              | (type_id, name) =>
                  bind (event_line_under py (fst item) type_id name)
                    (fun line => Ok (line ++ nl))
              end) =
  match table_line_under py item with Ok s => Ok (s ++ nl) | Raise e => Raise e end.
Proof.
  unfold table_line_under, bind. now destruct (unpack2 (snd item)) as [[a b]|e].
Qed.

(** One constant declaration of console mode, then the rest. *)
Ltac constant_step py :=
  rewrite io_lift_then;
  match goal with
  | |- context [constant_line_under py ?item] =>
      destruct (constant_line_under py item); cbn [fst snd];
      [rewrite ?print_then | norm_text]
  end.

(** Console mode under the interpreter as five passes separated by fixed
    lines, the last one over the constants. *)
Lemma convert_under_closed_form (py : interpreter) (d : descriptor) (out : string) :
  convert_typeinfos_to_typescript_under py d out =
  let stop := fun e t => (@Raise unit e, t) in
  after (scan (catalog_line_under py) (enumerate (typeinfos d))) stop
    (out ++ unlines console_head) (fun t1 =>
  after (scan (table_line_under py) (game_event_types d)) stop
    (t1 ++ unlines (["];"; EmptyString] ++ console_table_open "gameEventTypes")) (fun t2 =>
  after (scan (table_line_under py) (message_event_types d)) stop
    (t2 ++ unlines (["};"; EmptyString] ++ console_table_open "messageEventTypes")) (fun t3 =>
  after (scan (table_line_under py) (tracker_event_types d)) stop
    (t3 ++ unlines (["};"; EmptyString] ++ console_table_open "trackerEventTypes")) (fun t4 =>
  after (scan (constant_line_under py) (constant_items d)) stop
    (t4 ++ unlines ["};"; EmptyString; "// Important protocol type IDs"]) (fun t5 =>
  (Ok tt, t5)))))).
Proof.
  unfold convert_typeinfos_to_typescript_under.
  rewrite !print_then.
  rewrite (for_io_then (catalog_line_under py)) by apply catalog_body_under.
  cbv zeta. unfold after.
  destruct (snd (scan (catalog_line_under py) (enumerate (typeinfos d))));
    [norm_text|].
  rewrite !print_then.
  rewrite (for_io_then (table_line_under py)) by apply table_body_under. unfold after.
  destruct (snd (scan (table_line_under py) (game_event_types d))); [norm_text|].
  rewrite !print_then.
  rewrite (for_io_then (table_line_under py)) by apply table_body_under. unfold after.
  destruct (snd (scan (table_line_under py) (message_event_types d))); [norm_text|].
  rewrite !print_then.
  rewrite (for_io_then (table_line_under py)) by apply table_body_under. unfold after.
  destruct (snd (scan (table_line_under py) (tracker_event_types d))); [norm_text|].
  rewrite !print_then. cbn [scan constant_items].
  do 7 constant_step py.
  rewrite io_lift_then.
  destruct (constant_line_under py ("REPLAY_INITDATA_TYPEID", replay_initdata_typeid d));
    cbn [fst snd]; [unfold print_|]; norm_text.
Qed.

(** File mode under the interpreter as the same five passes. *)
Lemma generate_under_closed_form (py : interpreter) (d : descriptor) :
  generate_typescript_protocol_file_under py d =
  let stop := fun e (_ : string) => @Raise string e in
  after (scan (catalog_line_under py) (enumerate (typeinfos d))) stop
    file_preamble (fun t1 =>
  after (scan (table_line_under py) (game_event_types d)) stop
    (t1 ++ unlines (["];"; EmptyString] ++ file_table_open "gameEventTypes")) (fun t2 =>
  after (scan (table_line_under py) (message_event_types d)) stop
    (t2 ++ unlines (["};"; EmptyString] ++ file_table_open "messageEventTypes")) (fun t3 =>
  after (scan (table_line_under py) (tracker_event_types d)) stop
    (t3 ++ unlines (["};"; EmptyString] ++ file_table_open "trackerEventTypes")) (fun t4 =>
  after (scan (constant_line_under py) (constant_items d)) stop
    (t4 ++ unlines ["};"; EmptyString; "// Important protocol type IDs"]) (fun t5 =>
  Ok (t5 ++ unlines helper_lines)))))).
Proof.
  unfold generate_typescript_protocol_file_under. cbv zeta.
  rewrite (for_content_then (catalog_line_under py)) by apply catalog_chunk_under.
  unfold after.
  destruct (snd (scan (catalog_line_under py) (enumerate (typeinfos d))));
    [reflexivity|].
  rewrite (for_content_then (table_line_under py)) by apply table_chunk_under.
  unfold after.
  destruct (snd (scan (table_line_under py) (game_event_types d))); [reflexivity|].
  rewrite (for_content_then (table_line_under py)) by apply table_chunk_under.
  unfold after.
  destruct (snd (scan (table_line_under py) (message_event_types d))); [reflexivity|].
  rewrite (for_content_then (table_line_under py)) by apply table_chunk_under.
  unfold after.
  destruct (snd (scan (table_line_under py) (tracker_event_types d))); [reflexivity|].
  cbn [scan constant_items]. unfold constant_line_under. cbn [fst snd].
  destruct (str_int_under py (game_eventid_typeid d)); [|reflexivity].
  destruct (str_int_under py (message_eventid_typeid d)); [|reflexivity].
  destruct (str_int_under py (tracker_eventid_typeid d)); [|reflexivity].
  destruct (str_int_under py (svaruint32_typeid d)); [|reflexivity].
  destruct (str_int_under py (replay_userid_typeid d)); [|reflexivity].
  destruct (str_int_under py (replay_header_typeid d)); [|reflexivity].
  destruct (str_int_under py (game_details_typeid d)); [|reflexivity].
  destruct (str_int_under py (replay_initdata_typeid d)); [|reflexivity].
  cbn [bind fst snd]. f_equal.
  cbn [unlines file_table_open helper_lines app].
  rewrite ?append_assoc. unfold file_helpers, nl. cbn [append]. reflexivity.
Qed.

(** ** Agreement with the routines without limits *)

Lemma scan_pointwise {X : Type} (l1 l2 : X -> result string) (xs : list X) :
  (forall x, In x xs -> l1 x = l2 x) -> scan l1 xs = scan l2 xs.
Proof.
  induction xs as [|x xs IH]; intros H; [reflexivity|].
  cbn [scan]. rewrite (H x (or_introl eq_refl)).
  now rewrite IH by (intros y Hy; apply H; now right).
Qed.

Lemma constants_scan_fits (py : interpreter) (d : descriptor) :
  forallb (int_fits py) (constants_of d) = true ->
  scan (constant_line_under py) (constant_items d) =
  (unlines (tl (constant_lines d)), None).
Proof.
  unfold constants_of. cbn [forallb]. rewrite !andb_true_iff.
  intros (H1 & H2 & H3 & H4 & H5 & H6 & H7 & H8 & _).
  unfold constant_items, constant_line_under. cbn [scan fst snd].
  rewrite !str_int_under_fits by assumption. reflexivity.
Qed.

Lemma within_limits_parts (py : interpreter) (d : descriptor) :
  within_limits py d = true ->
  (forall ie, In ie (enumerate (typeinfos d)) -> typeinfo_fits py ie = true)
  /\ (forall c item, In item (table_of c d) -> item_fits py item = true)
  /\ forallb (int_fits py) (constants_of d) = true.
Proof.
  unfold within_limits. rewrite !andb_true_iff, !forallb_forall.
  intros ((((Hc & Hg) & Hm) & Ht) & Hk). split; [exact Hc|]. split.
  - intros c item. destruct c; cbn [table_of]; auto.
  - exact Hk.
Qed.

(** Where every value is one [str] accepts, the routines under the
    interpreter do what the routines without limits do. *)
Lemma under_agrees (py : interpreter) (d : descriptor) :
  within_limits py d = true ->
  generate_typescript_protocol_file_under py d = generate_typescript_protocol_file d
  /\ forall out,
       convert_typeinfos_to_typescript_under py d out =
       convert_typeinfos_to_typescript d out.
Proof.
  intros H. destruct (within_limits_parts py d H) as (Hc & Ht & Hk).
  assert (Ec : scan (catalog_line_under py) (enumerate (typeinfos d)) =
               scan catalog_line (enumerate (typeinfos d))).
  { apply scan_pointwise. intros ie Hie. now apply catalog_line_under_fits, Hc. }
  assert (Et : forall c, scan (table_line_under py) (table_of c d) =
                         scan table_line (table_of c d)).
  { intros c. apply scan_pointwise. intros item Hi.
    now apply table_line_under_fits, (Ht c). }
  assert (Eg := Et GameEvents). assert (Em := Et MessageEvents).
  assert (Er := Et TrackerEvents). cbn [table_of] in Eg, Em, Er.
  split; [|intros out].
  - rewrite generate_under_closed_form, generate_closed_form. cbv zeta.
    rewrite Ec, Eg, Em, Er, (constants_scan_fits py d Hk). unfold after.
    destruct (snd (scan catalog_line (enumerate (typeinfos d)))); [reflexivity|].
    destruct (snd (scan table_line (game_event_types d))); [reflexivity|].
    destruct (snd (scan table_line (message_event_types d))); [reflexivity|].
    destruct (snd (scan table_line (tracker_event_types d))); [reflexivity|].
    cbn [fst snd]. f_equal.
    cbn [unlines constant_lines tl app]. rewrite ?unlines_app.
    cbn [unlines constant_lines tl app]. now rewrite ?append_assoc.
  - rewrite convert_under_closed_form, convert_closed_form. cbv zeta.
    rewrite Ec, Eg, Em, Er, (constants_scan_fits py d Hk). unfold after.
    destruct (snd (scan catalog_line (enumerate (typeinfos d)))); [reflexivity|].
    destruct (snd (scan table_line (game_event_types d))); [reflexivity|].
    destruct (snd (scan table_line (message_event_types d))); [reflexivity|].
    destruct (snd (scan table_line (tracker_event_types d))); [reflexivity|].
    cbn [fst snd]. f_equal.
    cbn [unlines constant_lines tl app]. now rewrite ?append_assoc.
Qed.

(** ** Descriptors that render, and those that do not *)

Lemma catalog_entry_renders (l : list pyval) (n : nat) :
  forallb unpacks l = true ->
  Forall2 renders_typeinfo (enumerate_from n l) (map catalog_entry (enumerate_from n l)).
Proof.
  revert n; induction l as [|e l IH]; intros n H; cbn [enumerate_from map];
    [constructor|].
  cbn [forallb] in H. apply andb_true_iff in H. destruct H as [He Hl].
  constructor; [|now apply IH].
  exists (fst (the_pair e)), (snd (the_pair e)). cbn [fst snd]. split.
  - rewrite (unpacks_pair _ He). now destruct (the_pair e).
  - reflexivity.
Qed.

Lemma renderable_parts (py : interpreter) (d : descriptor) :
  renderable py d = true -> well_shaped d = true /\ within_limits py d = true.
Proof. unfold renderable. now rewrite andb_true_iff. Qed.

(** A descriptor whose entries unpack and whose values [str] accepts gets
    both documents, each line of an entry being the text of its f-string. *)
Lemma renderable_documents (py : interpreter) (d : descriptor) :
  renderable py d = true ->
  exists catalog game message tracker : list string,
    Forall2 renders_typeinfo (enumerate (typeinfos d)) catalog
    /\ Forall2 renders_entry (game_event_types d) game
    /\ Forall2 renders_entry (message_event_types d) message
    /\ Forall2 renders_entry (tracker_event_types d) tracker
    /\ generate_typescript_protocol_file_under py d =
       Ok (unlines (assemble file_head file_table_open catalog game message tracker
                      (constant_lines d) ++ helper_lines))
    /\ forall out,
         convert_typeinfos_to_typescript_under py d out =
         (Ok tt,
          out ++ unlines (assemble console_head console_table_open catalog game
                            message tracker (constant_lines d))).
Proof.
  intros H. destruct (renderable_parts py d H) as [Hw Hl].
  destruct (well_shaped_parts d Hw) as (Hc & Hg & Hm & Ht).
  destruct (under_agrees py d Hl) as [Ef Ec].
  exists (map catalog_entry (enumerate (typeinfos d))),
    (map table_entry (game_event_types d)),
    (map table_entry (message_event_types d)),
    (map table_entry (tracker_event_types d)).
  split; [now apply catalog_entry_renders|].
  split; [now apply table_entry_renders|].
  split; [now apply table_entry_renders|].
  split; [now apply table_entry_renders|].
  split.
  - rewrite Ef. now apply generate_well_shaped.
  - intros out. rewrite Ec. now apply convert_well_shaped.
Qed.

Lemma forallb_andb {A : Type} (p q : A -> bool) (l : list A) :
  forallb (fun x => p x && q x) l = forallb p l && forallb q l.
Proof.
  induction l as [|x l IH]; [reflexivity|]. cbn [forallb]. rewrite IH.
  destruct (p x), (q x), (forallb p l); reflexivity.
Qed.

Lemma catalog_scan_under_none (py : interpreter) (l : list pyval) :
  snd (scan (catalog_line_under py) (enumerate l)) = None ->
  forallb unpacks l = true /\ forallb (typeinfo_fits py) (enumerate l) = true.
Proof.
  intros H. apply scan_none in H.
  rewrite (forallb_eq _ (fun ie => unpacks (snd ie) && typeinfo_fits py ie)) in H
    by (intros ie; apply is_ok_catalog_line_under).
  rewrite forallb_andb in H. apply andb_true_iff in H. destruct H as [Hu Hf].
  unfold enumerate in Hu. rewrite forallb_enumerate_from in Hu. now split.
Qed.

Lemma table_scan_under_none (py : interpreter) (t : list (pyval * pyval)) :
  snd (scan (table_line_under py) t) = None ->
  forallb (fun item => unpacks (snd item)) t = true /\ forallb (item_fits py) t = true.
Proof.
  intros H. apply scan_none in H.
  rewrite (forallb_eq _ (fun item => unpacks (snd item) && item_fits py item)) in H
    by (intros item; apply is_ok_table_line_under).
  rewrite forallb_andb in H. now apply andb_true_iff in H.
Qed.

Lemma constants_scan_under_none (py : interpreter) (d : descriptor) :
  snd (scan (constant_line_under py) (constant_items d)) = None ->
  forallb (int_fits py) (constants_of d) = true.
Proof.
  intros H. apply scan_none in H. revert H.
  unfold constant_items, constants_of, constant_line_under. cbn [forallb fst snd].
  now rewrite !is_ok_bind_ok, !is_ok_str_int_under.
Qed.

(** A descriptor with an entry that does not unpack or a value [str]
    refuses makes both routines stop with the same exception; file mode has
    no text to return, console mode has printed its head and what came
    before. *)
Lemma unrenderable_raises (py : interpreter) (d : descriptor) :
  renderable py d = false ->
  exists (e : pyexn) (partial : string),
    generate_typescript_protocol_file_under py d = Raise e
    /\ forall out,
         convert_typeinfos_to_typescript_under py d out =
         (Raise e, out ++ unlines console_head ++ partial).
Proof.
  intros H. rewrite generate_under_closed_form.
  assert (Hc := convert_under_closed_form py d). cbv zeta in *. unfold after in *.
  destruct (snd (scan (catalog_line_under py) (enumerate (typeinfos d))))
    as [e|] eqn:E1.
  { exists e; eexists; split; [reflexivity|]. intros out.
    rewrite Hc, append_assoc. reflexivity. }
  destruct (snd (scan (table_line_under py) (game_event_types d))) as [e|] eqn:E2.
  { exists e; eexists; split; [reflexivity|]. intros out.
    rewrite Hc, !append_assoc. reflexivity. }
  destruct (snd (scan (table_line_under py) (message_event_types d))) as [e|] eqn:E3.
  { exists e; eexists; split; [reflexivity|]. intros out.
    rewrite Hc, !append_assoc. reflexivity. }
  destruct (snd (scan (table_line_under py) (tracker_event_types d))) as [e|] eqn:E4.
  { exists e; eexists; split; [reflexivity|]. intros out.
    rewrite Hc, !append_assoc. reflexivity. }
  destruct (snd (scan (constant_line_under py) (constant_items d))) as [e|] eqn:E5.
  { exists e; eexists; split; [reflexivity|]. intros out.
    rewrite Hc, !append_assoc. reflexivity. }
  exfalso. unfold renderable, well_shaped, within_limits in H.
  destruct (catalog_scan_under_none py _ E1) as [A1 B1].
  destruct (table_scan_under_none py _ E2) as [A2 B2].
  destruct (table_scan_under_none py _ E3) as [A3 B3].
  destruct (table_scan_under_none py _ E4) as [A4 B4].
  rewrite A1, A2, A3, A4, B1, B2, B3, B4, (constants_scan_under_none py d E5) in H.
  discriminate.
Qed.



(** ** Where rendering stops *)




(** ** Totality *)





(** ** Names pasted unescaped *)

(** C4 -- Round trip of the dispatch tables, at the game event
    [0: (1, name)] whose name is [a], a double quote, [b].  Both documents
    hold one line for the item, in which the name is pasted between double
    quotes unescaped.  Read by the string-literal rules the [name] literal
    of that line denotes [a], not the name, and the line as a whole does not
    read back as an entry; with the name written as its escaped literal it
    reads back as the item. *)
Theorem quote_breaks_table_entry :
  let name := "a" ++ dq ++ "b" in
  let entry := "  0: { typeId: 1, name: " ++ dq ++ name ++ dq ++ " }," in
  generate_typescript_protocol_file_under default_interpreter quoted_event_descriptor
  = Ok (unlines (file_lines quoted_event_descriptor))
  /\ nth_error (file_lines quoted_event_descriptor) 18 = Some entry
  /\ convert_typeinfos_to_typescript_under default_interpreter quoted_event_descriptor
       EmptyString
     = (Ok tt, unlines (console_lines quoted_event_descriptor))
  /\ nth_error (console_lines quoted_event_descriptor) 12 = Some entry
  /\ ts_read_string (dq ++ name ++ dq ++ " },") = Some ("a", "b" ++ dq ++ " },")
  /\ read_event_line entry = None
  /\ read_event_line ("  0: { typeId: 1, name: " ++ ts_string_literal name ++ " },")
     = Some (0%Z, 1%Z, name).
Proof.
  cbv zeta. repeat split; vm_compute; reflexivity.
Qed.

(** C8 -- Accessor surface, at a catalog entry whose name holds a line
    break followed by the opening of a function declaration.  The name is
    pasted as it is, so the console text, split at its line breaks, has a
    line that opens a function declaration, where the claim has none; and
    the file text has five such lines, where the claim has exactly four. *)
Theorem line_break_injects_declaration :
  convert_typeinfos_to_typescript_under default_interpreter injected_descriptor
    EmptyString
  = (Ok tt, unlines (console_lines injected_descriptor))
  /\ filter declares_function (split_lines (unlines (console_lines injected_descriptor)))
     = [ "export function extra(): void {" ++ dq ++ ", data: [] }, // 0" ]
  /\ generate_typescript_protocol_file_under default_interpreter injected_descriptor
     = Ok (unlines (file_lines injected_descriptor))
  /\ filter declares_function (split_lines (unlines (file_lines injected_descriptor)))
     = [ "export function extra(): void {" ++ dq ++ ", data: [] }, // 0";
         "export function getTypeInfo(typeId: number): ProtocolTypeInfo | undefined {";
         "export function getGameEventType(eventId: number): EventType | undefined {";
         "export function getMessageEventType(eventId: number): EventType | undefined {";
         "export function getTrackerEventType(eventId: number): EventType | undefined {" ].
Proof.
  repeat split; vm_compute; reflexivity.
Qed.

(** C10 -- One entry per output line, at the game event [0: (1, name)]
    whose name is [a], a line break, [b].  The table has one item and both
    documents spread it over two lines: the line after the one that opens
    the mapping literal ends inside the name, the next one carries the rest,
    and only then comes the closing line. *)
Theorem line_break_splits_table_entry :
  convert_typeinfos_to_typescript_under default_interpreter two_line_event_descriptor
    EmptyString
  = (Ok tt, unlines (console_lines two_line_event_descriptor))
  /\ firstn 3 (skipn 12 (split_lines (unlines (console_lines two_line_event_descriptor))))
     = [ "  0: { typeId: 1, name: " ++ dq ++ "a"; "b" ++ dq ++ " },"; "};" ]
  /\ generate_typescript_protocol_file_under default_interpreter two_line_event_descriptor
     = Ok (unlines (file_lines two_line_event_descriptor))
  /\ firstn 3 (skipn 18 (split_lines (unlines (file_lines two_line_event_descriptor))))
     = [ "  0: { typeId: 1, name: " ++ dq ++ "a"; "b" ++ dq ++ " },"; "};" ]
  /\ List.length (game_event_types two_line_event_descriptor) = 1%nat.
Proof.
  repeat split; vm_compute; reflexivity.
Qed.

(** ** The accessors on physical lines *)

(** X12 -- When no name, key or top-level string of a descriptor holds a
    line break, the lines of the file text that open a function declaration
    are exactly the four accessors: [getTypeInfo] over the catalog and one
    per dispatch table, each taking a numeric id and declared to return the
    entry type or [undefined]; and no line of the console text opens a
    function declaration. *)
Theorem accessors_on_physical_lines (d : descriptor) :
  well_shaped d = true ->
  one_line_entries d = true ->
  (exists text,
     generate_typescript_protocol_file d = Ok text
     /\ filter declares_function (split_lines text) =
        [ "export function getTypeInfo(typeId: number): ProtocolTypeInfo | undefined {";
          "export function getGameEventType(eventId: number): EventType | undefined {";
          "export function getMessageEventType(eventId: number): EventType | undefined {";
          "export function getTrackerEventType(eventId: number): EventType | undefined {" ])
  /\ filter declares_function
       (split_lines (snd (convert_typeinfos_to_typescript d EmptyString))) = [].
Proof.
  intros Hd H1. split.
  - exists (unlines (file_lines d)). split; [now apply generate_well_shaped|].
    rewrite split_unlines.
    + unfold file_lines.
      rewrite !filter_app, body_lines_no_function by reflexivity. reflexivity.
    + unfold file_lines. rewrite forallb_app.
      rewrite body_lines_one_line; [reflexivity | reflexivity | | exact H1].
      intros n Hn. unfold file_table_open. cbn [forallb].
      now rewrite !one_line_app, Hn.
  - rewrite (convert_well_shaped d EmptyString Hd). cbn [snd append].
    rewrite split_unlines.
    + unfold console_lines.
      rewrite filter_app, body_lines_no_function by reflexivity. reflexivity.
    + unfold console_lines. apply body_lines_one_line; [reflexivity | | exact H1].
      intros n Hn. unfold console_table_open. cbn [forallb].
      now rewrite !one_line_app, Hn.
Qed.

Lemma accessors_on_physical_lines_witness :
  well_shaped sample_descriptor = true
  /\ one_line_entries sample_descriptor = true
  /\ filter declares_function
       (split_lines (snd (convert_typeinfos_to_typescript sample_descriptor EmptyString)))
     = [].
Proof.
  split; [reflexivity|]. split; [reflexivity|].
  exact (proj2 (accessors_on_physical_lines sample_descriptor eq_refl eq_refl)).
Defined.

(** ** What a run depends on *)

(** X13 -- Console mode only appends to the stream: how it ends and the
    text it adds are the same whatever the stream held before. *)
Theorem console_mode_appends (py : interpreter) (d : descriptor) :
  exists (outcome : result unit) (text : string),
    forall out,
      convert_typeinfos_to_typescript_under py d out = (outcome, out ++ text).
Proof.
  destruct (renderable py d) eqn:H.
  - destruct (renderable_documents py d H) as (c & g & m & t & _ & _ & _ & _ & _ & Hc).
    now eexists _, _.
  - destruct (unrenderable_raises py d H) as (e & partial & _ & Hc).
    exists (Raise e), (unlines console_head ++ partial). exact Hc.
Qed.

(** X14 -- The interpreter's limits decide whether a run finishes, not what
    it writes: under two interpreters that both accept the values of a
    descriptor, file mode returns the same text and console mode prints the
    same text. *)
Theorem limits_do_not_change_the_text (py1 py2 : interpreter) (d : descriptor) :
  within_limits py1 d = true ->
  within_limits py2 d = true ->
  generate_typescript_protocol_file_under py1 d =
  generate_typescript_protocol_file_under py2 d
  /\ forall out,
       convert_typeinfos_to_typescript_under py1 d out =
       convert_typeinfos_to_typescript_under py2 d out.
Proof.
  intros H1 H2.
  destruct (under_agrees py1 d H1) as [F1 C1].
  destruct (under_agrees py2 d H2) as [F2 C2].
  split; [now rewrite F1, F2 | intros out; now rewrite C1, C2].
Qed.

Lemma limits_do_not_change_the_text_witness :
  within_limits default_interpreter sample_descriptor = true
  /\ within_limits {| int_max_str_digits := 0; repr_depth := 5 |} sample_descriptor
     = true
  /\ generate_typescript_protocol_file_under default_interpreter sample_descriptor =
     generate_typescript_protocol_file_under
       {| int_max_str_digits := 0; repr_depth := 5 |} sample_descriptor.
Proof.
  assert (H1 : within_limits default_interpreter sample_descriptor = true)
    by (vm_compute; reflexivity).
  assert (H2 : within_limits {| int_max_str_digits := 0; repr_depth := 5 |}
                 sample_descriptor = true) by (vm_compute; reflexivity).
  split; [exact H1|]. split; [exact H2|].
  exact (proj1 (limits_do_not_change_the_text _ _ sample_descriptor H1 H2)).
Defined.

(** ** The program *)

Lemma file_mode_selected (argv : list string) (prog : string) (more : list string) :
  argv = prog :: "--generate-file" :: more ->
  ((1 <? List.length argv)%nat && (nth 1 argv EmptyString =? "--generate-file"))%bool
  = true.
Proof. intros ->. reflexivity. Qed.

Lemma generate_under_renderable (py : interpreter) (d : descriptor) :
  renderable py d = true ->
  generate_typescript_protocol_file_under py d = Ok (unlines (file_lines d)).
Proof.
  intros H. destruct (renderable_parts py d H) as [Hw Hl].
  rewrite (proj1 (under_agrees py d Hl)). now apply generate_well_shaped.
Qed.

(** X1 -- A run with [--generate-file] as first argument, on a descriptor
    that renders, with a destination that can be opened and a write that
    goes through, leaves in [protocol.ts] exactly the file-mode document,
    whatever the file held before, and writes to the stream the
    confirmation line only; further arguments change nothing. *)
Theorem main_writes_file (py : interpreter) (prog : string) (more : list string)
    (d : descriptor) (w : world) :
  renderable py d = true ->
  writable w = true ->
  write_fault w (unlines (file_lines d)) = None ->
  main py (prog :: "--generate-file" :: more) d w =
  (None,
   set_stdout (set_protocol_ts w (unlines (file_lines d)))
     (stdout w ++ "Generated protocol.ts file" ++ nl)).
Proof.
  intros Hd Hw Hf. unfold main.
  rewrite (file_mode_selected _ prog more eq_refl).
  now rewrite (generate_under_renderable py d Hd), Hw, Hf.
Qed.

Lemma main_writes_file_witness :
  renderable default_interpreter sample_descriptor = true
  /\ protocol_ts
       (snd (main default_interpreter
               ["generate_typescript_protocol.py"; "--generate-file"]
               sample_descriptor
               {| stdout := EmptyString; protocol_ts := Some "stale";
                  writable := true; write_fault := fun _ => None |}))
     = Some (unlines (file_lines sample_descriptor)).
Proof.
  assert (H : renderable default_interpreter sample_descriptor = true)
    by (vm_compute; reflexivity).
  split; [exact H|].
  now rewrite (main_writes_file default_interpreter "generate_typescript_protocol.py" []
                 sample_descriptor
                 {| stdout := EmptyString; protocol_ts := Some "stale";
                    writable := true; write_fault := fun _ => None |}
                 H eq_refl eq_refl).
Defined.

(** X2 -- A run with [--generate-file] that does not reach its end never
    writes to the stream.  When the rendering raises or [open] is refused
    it changes nothing at all, the file included.  When the write fails
    after [open] has emptied the file, the run ends with that exception and
    the file holds what the failed write left, not what it held before.
    The run fails exactly in these three cases: the descriptor does not
    render, the destination cannot be opened, the write fails. *)
Theorem main_file_mode_failures (py : interpreter) (prog : string)
    (more : list string) (d : descriptor) (w : world) :
  let run := main py (prog :: "--generate-file" :: more) d w in
  (fst run <> None -> stdout (snd run) = stdout w)
  /\ (renderable py d = false \/ writable w = false ->
      fst run <> None /\ snd run = w)
  /\ (forall (e : main_exn) (remains : string),
        renderable py d = true ->
        writable w = true ->
        write_fault w (unlines (file_lines d)) = Some (e, remains) ->
        fst run = Some e /\ snd run = set_protocol_ts w remains)
  /\ (fst run <> None <->
      renderable py d = false \/ writable w = false
      \/ write_fault w (unlines (file_lines d)) <> None).
Proof.
  cbv zeta. unfold main. rewrite (file_mode_selected _ prog more eq_refl).
  destruct (renderable py d) eqn:Hd.
  - rewrite (generate_under_renderable py d Hd).
    destruct (writable w) eqn:Hw.
    + destruct (write_fault w (unlines (file_lines d))) as [[e remains]|] eqn:Hf;
        cbn [fst snd].
      * split; [reflexivity|]. split; [intros [H|H]; discriminate H|].
        split; [intros e' r' _ _ [= <- <-]; now split|].
        split; [intros _; right; right; discriminate | discriminate].
      * split; [intros H; now contradiction H|].
        split; [intros [H|H]; discriminate H|].
        split; [intros e' r' _ _ H; discriminate H|].
        split; [intros H; now contradiction H|].
        intros [H|[H|H]]; [discriminate H | discriminate H | now contradiction H].
    + cbn [fst snd]. split; [reflexivity|].
      split; [intros _; split; [discriminate | reflexivity]|].
      split; [intros e' r' _ H; discriminate H|].
      split; [intros _; right; now left | discriminate].
  - destruct (unrenderable_raises py d Hd) as (e & partial & Hg & _). rewrite Hg.
    cbn [fst snd]. split; [reflexivity|].
    split; [intros _; split; [discriminate | reflexivity]|].
    split; [intros e' r' H; discriminate H|].
    split; [intros _; now left | discriminate].
Qed.

Lemma main_file_mode_failures_witness :
  renderable default_interpreter big_int_descriptor = false
  /\ snd (main default_interpreter
            ["generate_typescript_protocol.py"; "--generate-file"] big_int_descriptor
            {| stdout := "earlier"; protocol_ts := Some "stale"; writable := true;
               write_fault := fun _ => None |})
     = {| stdout := "earlier"; protocol_ts := Some "stale"; writable := true;
          write_fault := fun _ => None |}
  /\ renderable default_interpreter sample_descriptor = true
  /\ protocol_ts
       (snd (main default_interpreter
               ["generate_typescript_protocol.py"; "--generate-file"] sample_descriptor
               {| stdout := "earlier"; protocol_ts := Some "stale"; writable := true;
                  write_fault := fun _ => Some (UnicodeEncodeError, EmptyString) |}))
     = Some EmptyString.
Proof.
  assert (H1 : renderable default_interpreter big_int_descriptor = false)
    by (vm_compute; reflexivity).
  assert (H2 : renderable default_interpreter sample_descriptor = true)
    by (vm_compute; reflexivity).
  split; [exact H1|]. split.
  - destruct (main_file_mode_failures default_interpreter
                "generate_typescript_protocol.py" [] big_int_descriptor
                {| stdout := "earlier"; protocol_ts := Some "stale"; writable := true;
                   write_fault := fun _ => None |}) as (_ & Hsame & _).
    exact (proj2 (Hsame (or_introl H1))).
  - split; [exact H2|].
    destruct (main_file_mode_failures default_interpreter
                "generate_typescript_protocol.py" [] sample_descriptor
                {| stdout := "earlier"; protocol_ts := Some "stale"; writable := true;
                   write_fault := fun _ => Some (UnicodeEncodeError, EmptyString) |})
      as (_ & _ & Hfault & _).
    destruct (Hfault UnicodeEncodeError EmptyString H2 eq_refl eq_refl) as [_ Hw].
    now rewrite Hw.
Defined.

Lemma console_mode_selected (argv : list string) :
  nth_error argv 1 <> Some "--generate-file" ->
  ((1 <? List.length argv)%nat && (nth 1 argv EmptyString =? "--generate-file"))%bool
  = false.
Proof.
  intros H. destruct argv as [|a [|b argv]]; try reflexivity.
  cbn. apply String.eqb_neq. intros ->. now apply H.
Qed.

(** X3 -- Unless the first argument is exactly [--generate-file], a run is
    console mode: it never creates or changes [protocol.ts], whether the
    rendering finishes or raises, and the stream ends as the console
    routine leaves it.  The flag in any later position, or no argument at
    all, selects console mode. *)
Theorem main_console_mode_keeps_file (py : interpreter) (argv : list string)
    (d : descriptor) (w : world) :
  nth_error argv 1 <> Some "--generate-file" ->
  let run := main py argv d w in
  protocol_ts (snd run) = protocol_ts w
  /\ stdout (snd run) = snd (convert_typeinfos_to_typescript_under py d (stdout w))
  /\ (fst run = None <->
      fst (convert_typeinfos_to_typescript_under py d (stdout w)) = Ok tt).
Proof.
  intros H. cbv zeta. unfold main. rewrite (console_mode_selected argv H).
  destruct (convert_typeinfos_to_typescript_under py d (stdout w)) as [[[]|e] out];
    cbn [fst snd protocol_ts stdout set_stdout]; repeat split; try reflexivity;
    discriminate.
Qed.

Lemma main_console_mode_keeps_file_witness :
  nth_error ["generate_typescript_protocol.py"; "--verbose"; "--generate-file"] 1
  <> Some "--generate-file"
  /\ protocol_ts
       (snd (main default_interpreter
               ["generate_typescript_protocol.py"; "--verbose"; "--generate-file"]
               sample_descriptor
               {| stdout := EmptyString; protocol_ts := None; writable := true;
                  write_fault := fun _ => None |}))
     = None.
Proof.
  assert (H : nth_error
                ["generate_typescript_protocol.py"; "--verbose"; "--generate-file"] 1
              <> Some "--generate-file") by discriminate.
  split; [exact H|].
  exact (proj1 (main_console_mode_keeps_file default_interpreter _ sample_descriptor
                  {| stdout := EmptyString; protocol_ts := None; writable := true;
                     write_fault := fun _ => None |} H)).
Defined.
